(** * Auth service of kong_microservices: token issuance, verification,
      refresh and revocation

    A shallow embedding of [auth_service/routes/auth_routes.py] and
    [auth_service/routes/token_routes.py].

    - The two module-level globals [users_db] (a dict keyed by email) and
      [token_blacklist] (a set of token strings) form the [World]; every
      route handler is a function from a request and a [World] to a
      [Response] and the next [World].
    - A request body is what [request.get_json()] returns: [None], or a
      JSON object with string-valued fields; [data.get k] is map lookup.
      Fields of other JSON types are outside the embedding.
    - [datetime.datetime.utcnow()] is the argument [now] (seconds).
    - [uuid.uuid4()] is the entropy source [uuid4]: the [n]-th call of the
      process returns [uuid4 n]; the [World] counts the calls made so far.
    - [jwt.encode] and [jwt.decode] belong to the PyJWT library; the
      handlers take them as parameters.  Module [PyJWT] gives the decode
      pipeline, for the properties that speak about signature and expiry. *)

From Stdlib Require Import ZArith String Ascii List Lia Bool.
From stdpp Require Import base option gmap strings list pretty.

Local Open Scope string_scope.
Local Open Scope Z_scope.

#[local] Set Warnings "-clear-no-such-hyp".

(** ** Python helpers *)

Module Py.

(** Truthiness of [data.get k] for a string-valued field: [None] and the
    empty string are falsy. *)
Definition truthy (o : option string) : bool :=
  match o with
  | None => false
  | Some s => negb (String.eqb s "")
  end.

(** [all([...])] over such fields. *)
Definition all (l : list (option string)) : bool := forallb truthy l.

(** [str.isspace] on one character of a latin-1 decoded header. *)
Definition isspace (c : ascii) : bool :=
  let n := nat_of_ascii c in
  ((9 <=? n)%nat && (n <=? 13)%nat)
  || ((28 <=? n)%nat && (n <=? 32)%nat)
  || (n =? 133)%nat || (n =? 160)%nat.

(** [s.split()]: maximal runs of non-whitespace characters. *)
Fixpoint split_from (word : string) (s : string) : list string :=
  match s with
  | EmptyString => if String.eqb word "" then [] else [word]
  | String c rest =>
      if isspace c
      then (if String.eqb word "" then split_from "" rest
            else word :: split_from "" rest)
      else split_from (word ++ String c EmptyString) rest
  end.

Definition split (s : string) : list string := split_from "" s.

(** [s.lower()], on the ASCII letters; the handlers only compare the
    result with the ASCII word [bearer]. *)
Definition lower_char (c : ascii) : ascii :=
  let n := nat_of_ascii c in
  if ((65 <=? n)%nat && (n <=? 90)%nat)%bool then ascii_of_nat (n + 32) else c.

Fixpoint lower (s : string) : string :=
  match s with
  | EmptyString => EmptyString
  | String c rest => String (lower_char c) (lower rest)
  end.

(** Exceptions the handlers distinguish in their [except] clauses:
    [jwt.ExpiredSignatureError], the other subclasses of
    [jwt.InvalidTokenError], and any other [Exception]. *)
Inductive InvalidTokenError : Type :=
| ExpiredSignatureError
| InvalidSignatureError
| DecodeError
| InvalidAlgorithmError
| ImmatureSignatureError
| InvalidAudienceError.

Inductive exception : Type :=
| Jwt (e : InvalidTokenError)
| OtherException.

Inductive result (A : Type) : Type :=
| Return (a : A)
| Raise (e : exception).
Arguments Return {A} a.
Arguments Raise {A} e.

End Py.
Export Py.

(** ** Data model *)

(** A record of [users_db], as [register] builds it.  [created_at] is kept
    as the timestamp it is formatted from. *)
Record User : Type := mkUser {
  u_id : string;
  u_username : string;
  u_email : string;
  u_password : string;
  u_created_at : Z;
  u_is_active : option bool
}.

(** [user.get('is_active', True)] *)
Definition get_is_active (u : User) : bool := default true (u_is_active u).

(** The claims dict given to [jwt.encode] and returned by [jwt.decode];
    every key may be absent, [payload.get k] is the field. *)
Record Payload : Type := mkPayload {
  p_sub : option string;
  p_email : option string;
  p_username : option string;
  p_type : option string;
  p_iat : option Z;
  p_exp : option Z;
  p_jti : option string;
  p_iss : option string
}.

(** [current_app.config] *)
Record Config : Type := mkConfig {
  JWT_SECRET_KEY : string;
  JWT_ALGORITHM : string;
  JWT_ACCESS_TOKEN_EXPIRES : Z;
  JWT_REFRESH_TOKEN_EXPIRES : Z
}.

(** [users_db] is a Python dict: keys are unique and iteration follows
    insertion order, which the lookup loop of [refresh_token] observes. *)
Definition UsersDb : Type := list (string * User).

Fixpoint db_get (email : string) (db : UsersDb) : option User :=
  match db with
  | [] => None
  | (k, u) :: rest => if String.eqb k email then Some u else db_get email rest
  end.

(** [users_db[email] = u]: overwrite in place, or append a new key. *)
Fixpoint db_set (email : string) (u : User) (db : UsersDb) : UsersDb :=
  match db with
  | [] => [(email, u)]
  | (k, v) :: rest =>
      if String.eqb k email then (k, u) :: rest else (k, v) :: db_set email u rest
  end.

(** [email in users_db] *)
Definition db_mem (email : string) (db : UsersDb) : bool :=
  match db_get email db with Some _ => true | None => false end.

Record World : Type := mkWorld {
  users_db : UsersDb;
  token_blacklist : gset string;
  uuid_calls : nat
}.

Definition initial_world : World :=
  {| users_db := []; token_blacklist := ∅; uuid_calls := 0 |}.

Definition Body : Type := option (gmap string string).

(** [not data] *)
Definition body_missing (data : Body) : bool :=
  match data with
  | None => true
  | Some m => bool_decide (m = ∅)
  end.

(** [data.get(k)], after the [not data] test has passed. *)
Definition body_get (data : Body) (k : string) : option string :=
  match data with
  | None => None
  | Some m => m !! k
  end.

(** ** Responses *)

Inductive Response : Type :=
| Failure (status : nat) (error : string) (code : string)
| Registered (user_id username email : string)
| LoggedIn (access_token refresh_token : string) (expires_in : Z)
           (user_id username email : string)
| Verified (user_id email username : option string)
           (issued_at expires_at : option Z)
| LoggedOut
| Refreshed (access_token : string) (expires_in : Z)
| Inactive (status : nat) (error : option string)
| Active (claims : Payload)
| RevokedOk.

Definition status_code (r : Response) : nat :=
  match r with
  | Failure s _ _ => s
  | Registered _ _ _ => 201
  | Inactive s _ => s
  | _ => 200
  end%nat.

(** The [active] member of an introspection response. *)
Definition active (r : Response) : option bool :=
  match r with
  | Inactive _ _ => Some false
  | Active _ => Some true
  | _ => None
  end.

(** ** The token codec (PyJWT)

    [jwt.decode(token, key, algorithms=[alg])] runs in stages: load the
    three segments, check the header algorithm against the allow-list,
    verify the signature, parse the payload, and only then validate the
    registered claims, in this order: [iat] and [nbf] against the clock (a
    value in the future raises [ImmatureSignatureError]), [exp] against the
    clock, and [aud] (the handlers pass no audience, so a token that
    carries one is refused).  Segment parsing, the signature primitive and
    payload parsing are parameters.  The handlers pass no issuer, so [iss]
    is not checked; the clock is in whole seconds, which decides the
    comparisons with the integer claims exactly. *)

Module PyJWT.

Record Segments : Type := mkSegments {
  seg_alg : option string;
  seg_signing_input : string;
  seg_payload : string;
  seg_signature : string
}.

(** The registered claims of a payload segment that the handlers never read
    but the library validates: [nbf], and whether a non-empty [aud] is
    present. *)
Record Registered : Type := mkRegistered {
  reg_nbf : option Z;
  reg_aud : bool
}.

(** A time claim that lies after the clock. *)
Definition in_future (claim : option Z) (now : Z) : bool :=
  match claim with
  | Some t => now <? t
  | None => false
  end.

Definition and_then {A B : Type} (r : result A) (k : A -> result B) : result B :=
  match r with
  | Return a => k a
  | Raise e => Raise e
  end.

Section Decode.
Variable load : string -> option Segments.
Variable verify_signature : string -> string -> string -> string -> bool.
Variable decode_payload : string -> option Payload.
Variable registered_claims : string -> Registered.

Definition validate_iat (payload : Payload) (now : Z) : result Payload :=
  if in_future (p_iat payload) now
  then Raise (Jwt ImmatureSignatureError) else Return payload.

Definition validate_nbf (reg : Registered) (payload : Payload) (now : Z)
  : result Payload :=
  if in_future (reg_nbf reg) now
  then Raise (Jwt ImmatureSignatureError) else Return payload.

Definition validate_aud (reg : Registered) (payload : Payload) : result Payload :=
  if reg_aud reg then Raise (Jwt InvalidAudienceError) else Return payload.

Definition validate_exp (payload : Payload) (now : Z) : result Payload :=
  match p_exp payload with
  | Some exp =>
      if exp <=? now then Raise (Jwt ExpiredSignatureError) else Return payload
  | None => Return payload
  end.

Definition validate_claims (reg : Registered) (payload : Payload) (now : Z)
  : result Payload :=
  and_then (validate_iat payload now) (fun payload =>
  and_then (validate_nbf reg payload now) (fun payload =>
  and_then (validate_exp payload now) (fun payload =>
  validate_aud reg payload))).

Definition decode (token key : string) (algorithms : list string) (now : Z)
  : result Payload :=
  match load token with
  | None => Raise (Jwt DecodeError)
  | Some seg =>
      match seg_alg seg with
      | None => Raise (Jwt InvalidAlgorithmError)
      | Some alg =>
          if negb (bool_decide (alg ∈ algorithms))
          then Raise (Jwt InvalidAlgorithmError)
          else if negb (verify_signature alg key (seg_signing_input seg)
                          (seg_signature seg))
          then Raise (Jwt InvalidSignatureError)
          else match decode_payload (seg_payload seg) with
               | None => Raise (Jwt DecodeError)
               | Some payload =>
                   validate_claims (registered_claims (seg_payload seg))
                     payload now
               end
      end
  end.

(** What the token says about itself, before any check: the [exp] written
    in its payload segment, and whether its signature verifies. *)
Definition unverified_exp (token : string) : option Z :=
  seg ← load token; payload ← decode_payload (seg_payload seg); p_exp payload.

(** Whether the [iat] or the [nbf] written in the payload segment lies
    after the clock. *)
Definition not_yet_valid (token : string) (now : Z) : bool :=
  match load token with
  | Some seg =>
      match decode_payload (seg_payload seg) with
      | Some payload =>
          in_future (p_iat payload) now
          || in_future (reg_nbf (registered_claims (seg_payload seg))) now
      | None => false
      end
  | None => false
  end.

Definition signature_ok (token key : string) (algorithms : list string) : bool :=
  match load token with
  | Some seg =>
      match seg_alg seg with
      | Some alg =>
          bool_decide (alg ∈ algorithms)
          && verify_signature alg key (seg_signing_input seg) (seg_signature seg)
      | None => false
      end
  | None => false
  end.
End Decode.

(** Whether the header names an algorithm of the allow-list. *)
Definition seg_alg_known (seg : Segments) (algorithms : list string) : bool :=
  match seg_alg seg with
  | Some alg => bool_decide (alg ∈ algorithms)
  | None => false
  end.

End PyJWT.

(** ** Route handlers *)

Inductive Request : Type :=
| POST_register (data : Body)
| POST_login (data : Body)
| GET_verify (authorization : option string)
| POST_logout (authorization : option string)
| POST_refresh (data : Body)
| POST_introspect (data : Body)
| POST_revoke (data : Body).

Section Routes.

Variable jwt_encode : Payload -> string -> string -> string.
Variable jwt_decode : string -> string -> list string -> Z -> result Payload.
Variable uuid4 : nat -> string.
Variable config : Config.

Definition internal_error : Response :=
  Failure 500 "Internal server error" "INTERNAL_ERROR".

(** [str(uuid.uuid4())] *)
Definition draw_uuid (w : World) : string * World :=
  (uuid4 (uuid_calls w),
   {| users_db := users_db w;
      token_blacklist := token_blacklist w;
      uuid_calls := S (uuid_calls w) |}).

Definition set_users_db (db : UsersDb) (w : World) : World :=
  {| users_db := db;
     token_blacklist := token_blacklist w;
     uuid_calls := uuid_calls w |}.

(** [token_blacklist.add(token)] *)
Definition blacklist_add (token : string) (w : World) : World :=
  {| users_db := users_db w;
     token_blacklist := {[ token ]} ∪ token_blacklist w;
     uuid_calls := uuid_calls w |}.

(** *** auth_routes.py *)

Definition register (now : Z) (data : Body) (w : World) : Response * World :=
  if body_missing data
  then (Failure 400 "Request body is required" "INVALID_REQUEST", w)
  else
    let username := body_get data "username" in
    let email := body_get data "email" in
    let password := body_get data "password" in
    if negb (Py.all [username; email; password])
    then (Failure 400 "Username, email, and password are required" "MISSING_FIELDS", w)
    else
      match username, email, password with
      | Some username, Some email, Some password =>
          if db_mem email (users_db w)
          then (Failure 409 "User with this email already exists" "USER_EXISTS", w)
          else
            let '(user_id, w1) := draw_uuid w in
            let user := {| u_id := user_id;
                           u_username := username;
                           u_email := email;
                           u_password := password;
                           u_created_at := now;
                           u_is_active := Some true |} in
            (Registered user_id username email,
             set_users_db (db_set email user (users_db w1)) w1)
      | _, _, _ => (internal_error, w) (* not reached: [all] has passed *)
      end.

Definition access_payload (user : User) (now : Z) (jti : string) : Payload :=
  {| p_sub := Some (u_id user);
     p_email := Some (u_email user);
     p_username := Some (u_username user);
     p_type := Some "access";
     p_iat := Some now;
     p_exp := Some (now + JWT_ACCESS_TOKEN_EXPIRES config);
     p_jti := Some jti;
     p_iss := Some "kong-demo-auth" |}.

Definition refresh_payload (user : User) (now : Z) (jti : string) : Payload :=
  {| p_sub := Some (u_id user);
     p_email := None;
     p_username := None;
     p_type := Some "refresh";
     p_iat := Some now;
     p_exp := Some (now + JWT_REFRESH_TOKEN_EXPIRES config);
     p_jti := Some jti;
     p_iss := Some "kong-demo-auth" |}.

Definition encode (payload : Payload) : string :=
  jwt_encode payload (JWT_SECRET_KEY config) (JWT_ALGORITHM config).

Definition decode (token : string) (now : Z) : result Payload :=
  jwt_decode token (JWT_SECRET_KEY config) [JWT_ALGORITHM config] now.

Definition login (now : Z) (data : Body) (w : World) : Response * World :=
  if body_missing data
  then (Failure 400 "Request body is required" "INVALID_REQUEST", w)
  else
    let email := body_get data "email" in
    let password := body_get data "password" in
    if negb (Py.all [email; password])
    then (Failure 400 "Email and password are required" "MISSING_FIELDS", w)
    else
      match email, password with
      | Some email, Some password =>
          match db_get email (users_db w) with
          | None => (Failure 401 "Invalid credentials" "INVALID_CREDENTIALS", w)
          | Some user =>
              if negb (String.eqb (u_password user) password)
              then (Failure 401 "Invalid credentials" "INVALID_CREDENTIALS", w)
              else if negb (get_is_active user)
              then (Failure 403 "Account is deactivated" "ACCOUNT_INACTIVE", w)
              else
                let '(access_jti, w1) := draw_uuid w in
                let '(refresh_jti, w2) := draw_uuid w1 in
                let access_token := encode (access_payload user now access_jti) in
                let refresh_token := encode (refresh_payload user now refresh_jti) in
                (LoggedIn access_token refresh_token
                   (JWT_ACCESS_TOKEN_EXPIRES config)
                   (u_id user) (u_username user) (u_email user), w2)
          end
      | _, _ => (internal_error, w) (* not reached: [all] has passed *)
      end.

(** The [except] clauses shared by [verify] and [refresh_token]. *)
Definition token_error (expired invalid : string) (e : exception) : Response :=
  match e with
  | Jwt ExpiredSignatureError => Failure 401 expired "TOKEN_EXPIRED"
  | Jwt _ => Failure 401 invalid "INVALID_TOKEN"
  | OtherException => internal_error
  end.

Definition bad_auth_format (parts : list string) : bool :=
  negb (Nat.eqb (length parts) 2)
  || negb (String.eqb (Py.lower (nth 0 parts "")) "bearer").

Definition verify (now : Z) (auth_header : option string) (w : World) : Response :=
  if negb (Py.truthy auth_header)
  then Failure 401 "Authorization header is required" "MISSING_AUTH"
  else
    let parts := Py.split (default "" auth_header) in
    if bad_auth_format parts
    then Failure 401 "Invalid authorization header format" "INVALID_AUTH_FORMAT"
    else
      let token := nth 1 parts "" in
      if bool_decide (token ∈ token_blacklist w)
      then Failure 401 "Token has been revoked" "TOKEN_REVOKED"
      else
        match decode token now with
        | Return payload =>
            Verified (p_sub payload) (p_email payload) (p_username payload)
                     (p_iat payload) (p_exp payload)
        | Raise e => token_error "Token has expired" "Invalid token" e
        end.

Definition logout (auth_header : option string) (w : World) : Response * World :=
  if negb (Py.truthy auth_header)
  then (Failure 401 "Authorization header is required" "MISSING_AUTH", w)
  else
    let parts := Py.split (default "" auth_header) in
    if bad_auth_format parts
    then (Failure 401 "Invalid authorization header format" "INVALID_AUTH_FORMAT", w)
    else
      let token := nth 1 parts "" in
      (LoggedOut, blacklist_add token w).


(** *** token_routes.py *)

(** The loop over [users_db.items()]: the first record, in insertion order,
    whose id equals [user_id]. *)
Fixpoint find_user_by_id (user_id : option string) (db : UsersDb) : option User :=
  match db with
  | [] => None
  | (_, user_data) :: rest =>
      if bool_decide (Some (u_id user_data) = user_id)
      then Some user_data
      else find_user_by_id user_id rest
  end.

Definition refresh_token (now : Z) (data : Body) (w : World) : Response * World :=
  if body_missing data
  then (Failure 400 "Request body is required" "INVALID_REQUEST", w)
  else
    let refresh_token := body_get data "refresh_token" in
    if negb (Py.truthy refresh_token)
    then (Failure 400 "Refresh token is required" "MISSING_TOKEN", w)
    else
      let refresh_token := default "" refresh_token in
      if bool_decide (refresh_token ∈ token_blacklist w)
      then (Failure 401 "Refresh token has been revoked" "TOKEN_REVOKED", w)
      else
        match decode refresh_token now with
        | Return payload =>
            if negb (bool_decide (p_type payload = Some "refresh"))
            then (Failure 401 "Invalid token type" "INVALID_TOKEN_TYPE", w)
            else
              let user_id := p_sub payload in
              match find_user_by_id user_id (users_db w) with
              | None => (Failure 404 "User not found" "USER_NOT_FOUND", w)
              | Some user =>
                  let '(jti, w1) := draw_uuid w in
                  let new_access_token := encode (access_payload user now jti) in
                  (Refreshed new_access_token (JWT_ACCESS_TOKEN_EXPIRES config), w1)
              end
        | Raise e =>
            (token_error "Refresh token has expired" "Invalid refresh token" e, w)
        end.

Definition introspect_token (now : Z) (data : Body) (w : World) : Response :=
  if body_missing data
  then Inactive 400 (Some "Request body is required")
  else
    let token := body_get data "token" in
    if negb (Py.truthy token)
    then Inactive 400 (Some "Token is required")
    else
      let token := default "" token in
      if bool_decide (token ∈ token_blacklist w)
      then Inactive 200 None
      else
        match decode token now with
        | Return payload => Active payload
        | Raise (Jwt ExpiredSignatureError) => Inactive 200 (Some "Token has expired")
        | Raise (Jwt _) => Inactive 200 (Some "Invalid token")
        | Raise OtherException => Inactive 500 (Some "Internal server error")
        end.

Definition revoke_token (data : Body) (w : World) : Response * World :=
  if body_missing data
  then (Failure 400 "Request body is required" "INVALID_REQUEST", w)
  else
    let token := body_get data "token" in
    if negb (Py.truthy token)
    then (Failure 400 "Token is required" "MISSING_TOKEN", w)
    else
      let token := default "" token in
      (RevokedOk, blacklist_add token w).

(** *** The service as a transition system *)

Definition handle (now : Z) (req : Request) (w : World) : Response * World :=
  match req with
  | POST_register data => register now data w
  | POST_login data => login now data w
  | GET_verify h => (verify now h w, w)
  | POST_logout h => logout h w
  | POST_refresh data => refresh_token now data w
  | POST_introspect data => (introspect_token now data w, w)
  | POST_revoke data => revoke_token data w
  end.

(** Serving a sequence of timestamped requests, oldest first. *)
Fixpoint run (reqs : list (Z * Request)) (w : World) : World :=
  match reqs with
  | [] => w
  | (now, req) :: rest => run rest (snd (handle now req w))
  end.

(** The ids held in the store were all drawn from the entropy source. *)
Definition ids_drawn (w : World) : Prop :=
  ∀ email user, (email, user) ∈ users_db w →
    ∃ n, (n < uuid_calls w)%nat ∧ u_id user = uuid4 n.

End Routes.


(** Requests as the handlers receive them. *)

Definition json (fields : list (string * string)) : Body :=
  Some (list_to_map fields).

Definition bearer (token : string) : option string := Some ("Bearer " ++ token).

(** The token a well-formed [Authorization] header carries. *)
Definition bearer_token (auth_header : option string) : option string :=
  if negb (Py.truthy auth_header) then None
  else
    let parts := Py.split (default "" auth_header) in
    if bad_auth_format parts then None else Some (nth 1 parts "").

(** ** A small deployment, for concrete runs

    A two-user store, a one-hour access and seven-day refresh lifetime, and
    a toy compact format [alg.payload.signature] standing in for the
    base64url segments and the HMAC of the library. *)

Module Demo.

Definition config : Config :=
  {| JWT_SECRET_KEY := "s3cret";
     JWT_ALGORITHM := "HS256";
     JWT_ACCESS_TOKEN_EXPIRES := 3600;
     JWT_REFRESH_TOKEN_EXPIRES := 604800 |}.

Definition uuid4 (n : nat) : string := pretty n.

Fixpoint split_dot_from (word : string) (s : string) : list string :=
  match s with
  | EmptyString => [word]
  | String c rest =>
      if Ascii.eqb c "."%char then word :: split_dot_from "" rest
      else split_dot_from (word ++ String c EmptyString) rest
  end.

Definition sign (alg key signing_input : string) : string :=
  alg ++ "/" ++ key ++ "/" ++ signing_input.

Definition verify_signature (alg key signing_input signature : string) : bool :=
  String.eqb (sign alg key signing_input) signature.

Definition load (token : string) : option PyJWT.Segments :=
  match split_dot_from "" token with
  | [h; p; s] =>
      Some {| PyJWT.seg_alg := if String.eqb h "" then None else Some h;
              PyJWT.seg_signing_input := h ++ "+" ++ p;
              PyJWT.seg_payload := p;
              PyJWT.seg_signature := s |}
  | _ => None
  end.

Definition alice : User :=
  {| u_id := "id-alice"; u_username := "alice"; u_email := "alice@x.com";
     u_password := "pw-a"; u_created_at := 10; u_is_active := Some true |}.

(** A record whose active flag has been cleared. *)
Definition bob : User :=
  {| u_id := "id-bob"; u_username := "bob"; u_email := "bob@x.com";
     u_password := "pw-b"; u_created_at := 20; u_is_active := Some false |}.

Definition claims (sub type : string) (exp : Z) : Payload :=
  {| p_sub := Some sub; p_email := None; p_username := None;
     p_type := Some type; p_iat := Some 1000; p_exp := Some exp;
     p_jti := Some "j"; p_iss := Some "kong-demo-auth" |}.

(** The payload segments this deployment knows how to parse. *)
Definition decode_payload (segment : string) : option Payload :=
  if String.eqb segment "alice-access" then Some (claims "id-alice" "access" 4600)
  else if String.eqb segment "alice-refresh" then Some (claims "id-alice" "refresh" 605800)
  else if String.eqb segment "bob-refresh" then Some (claims "id-bob" "refresh" 605800)
  else if String.eqb segment "carol-refresh" then Some (claims "id-carol" "refresh" 605800)
  else if String.eqb segment "alice-old" then Some (claims "id-alice" "access" 2000)
  else None.

(** No token of this deployment carries [nbf] or [aud]. *)
Definition registered_claims (segment : string) : PyJWT.Registered :=
  {| PyJWT.reg_nbf := None; PyJWT.reg_aud := false |}.

Definition jwt_decode : string -> string -> list string -> Z -> result Payload :=
  PyJWT.decode load verify_signature decode_payload registered_claims.

Definition jwt_encode (payload : Payload) (key alg : string) : string :=
  let p := default "" (p_type payload) ++ "-" ++ default "" (p_jti payload) in
  alg ++ "." ++ p ++ "." ++ sign alg key (alg ++ "+" ++ p).

(** A correctly signed token around a payload segment, and one whose
    signature was made with another key. *)
Definition signed (segment : string) : string :=
  "HS256." ++ segment ++ "." ++ sign "HS256" "s3cret" ("HS256+" ++ segment).

Definition forged (segment : string) : string :=
  "HS256." ++ segment ++ "." ++ sign "HS256" "guess" ("HS256+" ++ segment).

Definition world : World :=
  {| users_db := [("alice@x.com", alice); ("bob@x.com", bob)];
     token_blacklist := ∅;
     uuid_calls := 0 |}.

End Demo.

(** ** The service as a whole *)

(** The token a request puts on the blacklist, if any: the one a well-formed
    [/logout] header carries, or the non-empty [token] of a [/revoke] body. *)
Definition revoked_by (req : Request) : gset string :=
  match req with
  | POST_logout h =>
      match bearer_token h with
      | Some t => {[ t ]}
      | None => ∅
      end
  | POST_revoke data =>
      match body_get data "token" with
      | Some t => if String.eqb t "" then ∅ else {[ t ]}
      | None => ∅
      end
  | _ => ∅
  end.

Fixpoint revoked_in (reqs : list (Z * Request)) : gset string :=
  match reqs with
  | [] => ∅
  | (_, req) :: rest => revoked_by req ∪ revoked_in rest
  end.

(** The shape of the store the routes maintain: one record per email, filed
    under its own email, ids drawn from the entropy source and pairwise
    different. *)
Definition store_wf (uuid4 : nat -> string) (w : World) : Prop :=
  NoDup (map fst (users_db w))
  ∧ NoDup (map (λ kv, u_id (snd kv)) (users_db w))
  ∧ ∀ email user, (email, user) ∈ users_db w →
      u_email user = email ∧ ∃ n, (n < uuid_calls w)%nat ∧ u_id user = uuid4 n.

(** A response that reports a failure. *)
Definition is_error (r : Response) : bool := (400 <=? status_code r)%nat.

(** The tokens issued on the demo deployment to a user registered through
    [/register], with a codec that parses their payload segments. *)
Module Issued.

Definition carol : User :=
  {| u_id := Demo.uuid4 0; u_username := "carol"; u_email := "carol@x.com";
     u_password := "pw-c"; u_created_at := 10; u_is_active := Some true |}.

Definition register_carol : Request :=
  POST_register
    (json [("username", "carol"); ("email", "carol@x.com"); ("password", "pw-c")]).

Definition login_carol : Body :=
  json [("email", "carol@x.com"); ("password", "pw-c")].

Definition decode_payload (segment : string) : option Payload :=
  if String.eqb segment "access-1"
  then Some (access_payload Demo.config carol 5000 (Demo.uuid4 1))
  else if String.eqb segment "refresh-2"
  then Some (refresh_payload Demo.config carol 5000 (Demo.uuid4 2))
  else if String.eqb segment "refresh-anon"
  then Some {| p_sub := None; p_email := None; p_username := None;
               p_type := Some "refresh"; p_iat := Some 5000;
               p_exp := Some 609800; p_jti := Some "a";
               p_iss := Some "kong-demo-auth" |}
  else None.

Definition jwt_decode : string -> string -> list string -> Z -> result Payload :=
  PyJWT.decode Demo.load Demo.verify_signature decode_payload
    Demo.registered_claims.

(** The state after carol has registered at time 10. *)
Definition world : World :=
  snd (register Demo.uuid4 10
         (json [("username", "carol"); ("email", "carol@x.com"); ("password", "pw-c")])
         initial_world).

End Issued.

(** Tokens signed with the deployment's key whose payload is past its [exp]
    while its [iat], or its [nbf], lies in the future. *)
Module Postdated.

Definition decode_payload (segment : string) : option Payload :=
  if String.eqb segment "iat-ahead"
  then Some {| p_sub := Some "id-alice"; p_email := None; p_username := None;
               p_type := Some "access"; p_iat := Some 9000; p_exp := Some 2000;
               p_jti := Some "j"; p_iss := Some "kong-demo-auth" |}
  else if String.eqb segment "nbf-ahead"
  then Some (Demo.claims "id-alice" "access" 2000)
  else None.

Definition registered_claims (segment : string) : PyJWT.Registered :=
  {| PyJWT.reg_nbf := if String.eqb segment "nbf-ahead" then Some 9000 else None;
     PyJWT.reg_aud := false |}.

Definition jwt_decode : string -> string -> list string -> Z -> result Payload :=
  PyJWT.decode Demo.load Demo.verify_signature decode_payload registered_claims.

End Postdated.

(** * Properties *)

(** ** Requests and headers *)

Lemma body_get_Some (data : Body) (k v : string) :
  body_get data k = Some v -> body_missing data = false.
Proof.
  destruct data as [m|]; simpl; [|discriminate].
  intros Hk. apply bool_decide_eq_false. intros ->.
  rewrite lookup_empty in Hk. discriminate.
Qed.

Lemma truthy_Some (s : string) : s <> "" -> Py.truthy (Some s) = true.
Proof.
  intros Hs. simpl. apply negb_true_iff. by apply String.eqb_neq.
Qed.

Lemma truthy_inv (o : option string) :
  Py.truthy o = true -> exists s, o = Some s /\ s <> "".
Proof.
  destruct o as [s|]; simpl; [|discriminate].
  intros H%negb_true_iff%String.eqb_neq. eauto.
Qed.

Lemma json_get_singleton (k v : string) : body_get (json [(k, v)]) k = Some v.
Proof. simpl. apply lookup_insert_eq. Qed.

(** Every word [split] returns is non-empty. *)
Lemma split_from_nonempty (s word x : string) :
  x ∈ Py.split_from word s -> x <> "".
Proof.
  revert word. induction s as [|c rest IH]; intros word; simpl.
  - destruct (String.eqb_spec word ""); [by intros ?%elem_of_nil|].
    by intros ->%list_elem_of_singleton.
  - destruct (Py.isspace c).
    + destruct (String.eqb_spec word ""); [by apply IH|].
      intros [->|Hx]%elem_of_cons; [done|by eapply IH].
    + apply IH.
Qed.

Lemma bearer_token_nonempty (h : option string) (t : string) :
  bearer_token h = Some t -> t <> "".
Proof.
  unfold bearer_token, bad_auth_format.
  destruct (Py.truthy h); simpl; [|discriminate].
  destruct (Py.split (default "" h)) as [|a [|b [|c l]]] eqn:Hs; simpl;
    try discriminate.
  destruct (negb _); [discriminate|]. intros [= <-].
  apply (split_from_nonempty (default "" h) "").
  fold (Py.split (default "" h)). rewrite Hs. set_solver.
Qed.

Lemma append_cons (a : ascii) (s1 s2 : string) :
  String a s1 ++ s2 = String a (s1 ++ s2).
Proof. reflexivity. Qed.

Lemma append_empty_r (s : string) : s ++ "" = s.
Proof. induction s as [|a s IH]; [done|]. by rewrite append_cons, IH. Qed.

Lemma append_assoc (s1 s2 s3 : string) : (s1 ++ s2) ++ s3 = s1 ++ (s2 ++ s3).
Proof.
  induction s1 as [|a s1 IH]; [done|]. by rewrite !append_cons, IH.
Qed.

(** A token without whitespace travels intact in a [Bearer] header. *)
Lemma split_from_word (t word : string) :
  forallb (fun c => negb (Py.isspace c)) (list_ascii_of_string t) = true ->
  word ++ t <> "" ->
  Py.split_from word t = [word ++ t].
Proof.
  revert word. induction t as [|c rest IH]; intros word; simpl.
  - intros _. rewrite append_empty_r.
    intros Hw. by destruct (String.eqb_spec word "").
  - intros [Hc Hrest]%andb_true_iff Hne.
    apply negb_true_iff in Hc. rewrite Hc.
    assert (Hassoc : (word ++ String c "") ++ rest = word ++ String c rest)
      by (by rewrite append_assoc).
    rewrite IH; [by rewrite Hassoc | done | by rewrite Hassoc].
Qed.

Lemma split_from_first (w word rest : string) (c : ascii) :
  forallb (fun c => negb (Py.isspace c)) (list_ascii_of_string w) = true ->
  Py.isspace c = true ->
  word ++ w <> "" ->
  Py.split_from word (w ++ String c rest) = (word ++ w) :: Py.split_from "" rest.
Proof.
  intros Hw Hc. revert word Hw.
  induction w as [|a w IH]; intros word Hw Hne.
  - rewrite append_empty_r in *. simpl. rewrite Hc.
    by destruct (String.eqb_spec word "").
  - simpl in Hw. apply andb_true_iff in Hw as [Ha Hw].
    apply negb_true_iff in Ha. rewrite append_cons. simpl. rewrite Ha.
    assert (Hassoc : (word ++ String a "") ++ w = word ++ String a w)
      by (by rewrite append_assoc).
    rewrite IH; [by rewrite Hassoc | done | by rewrite Hassoc].
Qed.

Lemma bearer_token_bearer (t : string) :
  forallb (fun c => negb (Py.isspace c)) (list_ascii_of_string t) = true ->
  t <> "" ->
  bearer_token (bearer t) = Some t.
Proof.
  intros Hws Hne. unfold bearer_token, bearer, Py.split.
  assert (Hsplit : Py.split_from "" ("Bearer " ++ t) = ["Bearer"; t]).
  { change ("Bearer " ++ t) with ("Bearer" ++ String " " t).
    rewrite (split_from_first "Bearer" "" t " "); [| done..].
    by rewrite (split_from_word t "" Hws Hne). }
  assert (Htruthy : Py.truthy (Some ("Bearer " ++ t)) = true) by done.
  rewrite Htruthy. simpl default. rewrite Hsplit. reflexivity.
Qed.

(** ** The store *)

Lemma db_mem_get (email : string) (db : UsersDb) :
  db_mem email db = false <-> db_get email db = None.
Proof. unfold db_mem. by destruct (db_get email db). Qed.

(** Assigning to a key that is not yet there appends one item. *)
Lemma db_set_fresh (email : string) (u : User) (db : UsersDb) :
  db_get email db = None -> db_set email u db = (db ++ [(email, u)])%list.
Proof.
  induction db as [|[k v] rest IH]; simpl; [done|].
  destruct (String.eqb k email); [discriminate|]. intros H. by rewrite IH.
Qed.

Lemma db_get_set_eq (email : string) (u : User) (db : UsersDb) :
  db_get email (db_set email u db) = Some u.
Proof.
  induction db as [|[k v] rest IH]; simpl.
  - by rewrite String.eqb_refl.
  - destruct (String.eqb k email) eqn:E; simpl; by rewrite E.
Qed.

Lemma db_get_set_ne (email other : string) (u : User) (db : UsersDb) :
  other <> email -> db_get other (db_set email u db) = db_get other db.
Proof.
  intros Hne. induction db as [|[k v] rest IH]; simpl.
  - destruct (String.eqb_spec email other); congruence.
  - destruct (String.eqb_spec k email) as [->|]; simpl.
    + destruct (String.eqb_spec email other); congruence.
    + by rewrite IH.
Qed.

Lemma db_get_elem_of (email : string) (u : User) (db : UsersDb) :
  db_get email db = Some u -> (email, u) ∈ db.
Proof.
  induction db as [|[k v] rest IH]; simpl; [discriminate|].
  destruct (String.eqb_spec k email) as [->|].
  - intros [= ->]. set_solver.
  - intros H. apply elem_of_cons. right. auto.
Qed.

Lemma db_set_elem_of (email e : string) (u user : User) (db : UsersDb) :
  (e, u) ∈ db_set email user db -> (e, u) ∈ db \/ u = user.
Proof.
  induction db as [|[k v] rest IH]; simpl.
  - intros [= -> ->]%list_elem_of_singleton. by right.
  - destruct (String.eqb k email).
    + intros [[= -> ->]|Hin]%elem_of_cons; [by right|]. left. set_solver.
    + intros [[= -> ->]|Hin]%elem_of_cons; [left; set_solver|].
      destruct (IH Hin); [left; set_solver|by right].
Qed.

Lemma find_user_by_id_None (user_id : option string) (db : UsersDb) :
  find_user_by_id user_id db = None <->
  forall email user, (email, user) ∈ db -> Some (u_id user) <> user_id.
Proof.
  induction db as [|[k v] rest IH]; simpl.
  - split; [|done]. by intros _ ? ? ?%elem_of_nil.
  - case_bool_decide as Hid.
    + split; [discriminate|]. intros H. exfalso.
      apply (H k v); [set_solver|done].
    + rewrite IH. split.
      * intros H e u [[= -> ->]|Hin]%elem_of_cons; eauto.
      * intros H e u Hin. apply (H e u). set_solver.
Qed.


Lemma blacklist_add_idemp (t : string) (w : World) :
  blacklist_add t (blacklist_add t w) = blacklist_add t w.
Proof. unfold blacklist_add. simpl. f_equal. set_solver. Qed.

(** ** The handlers, case by case *)

Section RouteProperties.

Set Default Proof Using "Type".

Variable jwt_encode : Payload -> string -> string -> string.
Variable jwt_decode : string -> string -> list string -> Z -> result Payload.
Variable uuid4 : nat -> string.
Variable config : Config.

(** Unfolding a handler, whatever abbreviation is in force. *)
Ltac unfold_verify := unfold verify.
Ltac unfold_login := unfold login.
Ltac unfold_register := unfold register.
Ltac unfold_refresh_token := unfold refresh_token.
Ltac unfold_introspect_token := unfold introspect_token.

Local Abbreviation verify := (verify jwt_decode config).
Local Abbreviation decode := (decode jwt_decode config).
Local Abbreviation login := (login jwt_encode uuid4 config).
Local Abbreviation register := (register uuid4).
Local Abbreviation refresh_token := (refresh_token jwt_encode jwt_decode uuid4 config).
Local Abbreviation introspect_token := (introspect_token jwt_decode config).
Local Abbreviation handle := (handle jwt_encode jwt_decode uuid4 config).
Local Abbreviation run := (run jwt_encode jwt_decode uuid4 config).

Lemma verify_bearer (now : Z) (h : option string) (t : string) (w : World) :
  bearer_token h = Some t ->
  verify now h w =
    if bool_decide (t ∈ token_blacklist w)
    then Failure 401 "Token has been revoked" "TOKEN_REVOKED"
    else match decode t now with
         | Return payload =>
             Verified (p_sub payload) (p_email payload) (p_username payload)
                      (p_iat payload) (p_exp payload)
         | Raise e => token_error "Token has expired" "Invalid token" e
         end.
Proof.
  unfold bearer_token. unfold_verify.
  destruct (negb (Py.truthy h)); [discriminate|].
  destruct (bad_auth_format _); [discriminate|]. by intros [= ->].
Qed.

Lemma logout_bearer (h : option string) (t : string) (w : World) :
  bearer_token h = Some t -> logout h w = (LoggedOut, blacklist_add t w).
Proof.
  unfold bearer_token, logout.
  destruct (negb (Py.truthy h)); [discriminate|].
  destruct (bad_auth_format _); [discriminate|]. by intros [= ->].
Qed.

Lemma revoke_token_ok (data : Body) (t : string) (w : World) :
  body_get data "token" = Some t -> t <> "" ->
  revoke_token data w = (RevokedOk, blacklist_add t w).
Proof.
  intros Hget Hne. unfold revoke_token.
  rewrite (body_get_Some _ _ _ Hget), Hget, (truthy_Some _ Hne). reflexivity.
Qed.

(** No handler takes anything out of the blacklist. *)
Lemma handle_blacklist_mono (now : Z) (req : Request) (w : World) :
  token_blacklist w ⊆ token_blacklist (snd (handle now req w)).
Proof.
  destruct req as [data|data|h|h|data|data|data]; simpl; try done.
  - unfold_register.
    repeat (match goal with
            | |- context [if ?b then _ else _] => destruct b
            | |- context [match ?o with Some _ => _ | None => _ end] => destruct o
            end; simpl; try done).
  - unfold_login.
    repeat (match goal with
            | |- context [if ?b then _ else _] => destruct b
            | |- context [match ?o with Some _ => _ | None => _ end] => destruct o
            end; simpl; try done).
  - unfold logout.
    repeat (match goal with
            | |- context [if ?b then _ else _] => destruct b
            end; simpl; try done). set_solver.
  - unfold_refresh_token.
    repeat (match goal with
            | |- context [if ?b then _ else _] => destruct b
            | |- context [match ?o with Some _ => _ | None => _ end] => destruct o
            | |- context [match ?o with Return _ => _ | Raise _ => _ end] => destruct o
            end; simpl; try done).
  - unfold revoke_token.
    repeat (match goal with
            | |- context [if ?b then _ else _] => destruct b
            end; simpl; try done). set_solver.
Qed.

Lemma run_blacklist_mono (reqs : list (Z * Request)) (w : World) :
  token_blacklist w ⊆ token_blacklist (run reqs w).
Proof.
  revert w. induction reqs as [|[now req] rest IH]; intros w; simpl; [done|].
  etrans; [apply (handle_blacklist_mono now req)|apply IH].
Qed.

(** ** Revocation *)

(** C3: [verify] tests blacklist membership before it decodes.  For a token
    [t] carried by the [Authorization] header: once [t] has been revoked
    (by [/revoke] or by [/logout]), [verify] answers [TOKEN_REVOKED], now
    and after any further requests, whatever the codec would say about [t]
    (its expiry, signature or structure are not consulted); a token that is
    not revoked goes to [jwt.decode], whose result decides the answer: the
    decoded claims, [TOKEN_EXPIRED] for an expired token, [INVALID_TOKEN]
    for a malformed one or one whose signature fails. *)
Theorem verify_revocation_first
    (now : Z) (h : option string) (t : string) (data : Body) (w : World) :
  bearer_token h = Some t ->
  body_get data "token" = Some t ->
  (forall reqs,
     verify now h (run reqs (snd (revoke_token data w)))
     = Failure 401 "Token has been revoked" "TOKEN_REVOKED")
  /\ (forall reqs,
     verify now h (run reqs (snd (logout h w)))
     = Failure 401 "Token has been revoked" "TOKEN_REVOKED")
  /\ (t ∉ token_blacklist w ->
      verify now h w =
        match decode t now with
        | Return payload =>
            Verified (p_sub payload) (p_email payload) (p_username payload)
                     (p_iat payload) (p_exp payload)
        | Raise (Jwt ExpiredSignatureError) =>
            Failure 401 "Token has expired" "TOKEN_EXPIRED"
        | Raise (Jwt _) => Failure 401 "Invalid token" "INVALID_TOKEN"
        | Raise OtherException => internal_error
        end).
Proof.
  intros Hh Hdata. pose proof (bearer_token_nonempty _ _ Hh) as Hne.
  split; [|split].
  - intros reqs. rewrite (verify_bearer _ _ _ _ Hh).
    rewrite bool_decide_eq_true_2; [done|].
    apply run_blacklist_mono. rewrite (revoke_token_ok _ _ _ Hdata Hne).
    simpl. set_solver.
  - intros reqs. rewrite (verify_bearer _ _ _ _ Hh).
    rewrite bool_decide_eq_true_2; [done|].
    apply run_blacklist_mono. rewrite (logout_bearer _ _ _ Hh).
    simpl. set_solver.
  - intros Hnot. rewrite (verify_bearer _ _ _ _ Hh).
    rewrite bool_decide_eq_false_2 by done.
    destruct (decode t now) as [payload|[[]|]]; reflexivity.
Qed.

(** C5: [revoke] adds the token string to the blacklist as it is: the
    handler has no codec and no clock, so an expired or invalid token is
    added like any other.  Revoking twice leaves the same state as revoking
    once, and no request of the service removes a member of the blacklist. *)
Theorem revoke_unconditional_idempotent_permanent
    (data : Body) (t : string) (w : World) :
  body_get data "token" = Some t -> t <> "" ->
  revoke_token data w = (RevokedOk, blacklist_add t w)
  /\ token_blacklist (snd (revoke_token data w)) = {[ t ]} ∪ token_blacklist w
  /\ snd (revoke_token data (snd (revoke_token data w))) = snd (revoke_token data w)
  /\ (forall reqs, t ∈ token_blacklist (run reqs (snd (revoke_token data w))))
  /\ (forall t' now req w',
        t' ∈ token_blacklist w' -> t' ∈ token_blacklist (snd (handle now req w'))).
Proof.
  intros Hdata Hne. rewrite (revoke_token_ok _ _ _ Hdata Hne). simpl.
  rewrite (revoke_token_ok _ _ _ Hdata Hne). simpl.
  repeat split.
  - apply blacklist_add_idemp.
  - intros reqs. apply run_blacklist_mono. simpl. set_solver.
  - intros t' now req w' Hin. by apply handle_blacklist_mono.
Qed.

(** ** Refresh *)

Lemma refresh_token_decoded
    (now : Z) (data : Body) (t : string) (payload : Payload) (w : World) :
  body_get data "refresh_token" = Some t -> t <> "" ->
  t ∉ token_blacklist w ->
  decode t now = Return payload ->
  refresh_token now data w =
    if negb (bool_decide (p_type payload = Some "refresh"))
    then (Failure 401 "Invalid token type" "INVALID_TOKEN_TYPE", w)
    else match find_user_by_id (p_sub payload) (users_db w) with
         | None => (Failure 404 "User not found" "USER_NOT_FOUND", w)
         | Some user =>
             (Refreshed
                (encode jwt_encode config
                   (access_payload config user now (uuid4 (uuid_calls w))))
                (JWT_ACCESS_TOKEN_EXPIRES config),
              snd (draw_uuid uuid4 w))
         end.
Proof.
  intros Hget Hne Hnot Hdec. unfold_refresh_token.
  rewrite (body_get_Some _ _ _ Hget), Hget, (truthy_Some _ Hne). simpl.
  rewrite bool_decide_eq_false_2 by done. rewrite Hdec. reflexivity.
Qed.

(** A refresh token whose subject is not in the store is answered with
    [USER_NOT_FOUND]; nothing is minted. *)
Lemma refresh_user_not_found
    (now : Z) (data : Body) (t : string) (payload : Payload) (w : World) :
  body_get data "refresh_token" = Some t -> t <> "" ->
  t ∉ token_blacklist w ->
  decode t now = Return payload ->
  p_type payload = Some "refresh" ->
  (forall email user, (email, user) ∈ users_db w -> Some (u_id user) <> p_sub payload) ->
  refresh_token now data w = (Failure 404 "User not found" "USER_NOT_FOUND", w).
Proof.
  intros Hget Hne Hnot Hdec Hty Habs.
  rewrite (refresh_token_decoded _ _ _ _ _ Hget Hne Hnot Hdec).
  rewrite bool_decide_eq_true_2 by done. simpl.
  by apply find_user_by_id_None in Habs as ->.
Qed.

(** The record the subject resolves to is used as found: its active flag
    plays no part in the answer. *)
Lemma refresh_ignores_active_flag
    (now : Z) (data : Body) (t : string) (payload : Payload) (user : User)
    (w : World) :
  body_get data "refresh_token" = Some t -> t <> "" ->
  t ∉ token_blacklist w ->
  decode t now = Return payload ->
  p_type payload = Some "refresh" ->
  find_user_by_id (p_sub payload) (users_db w) = Some user ->
  fst (refresh_token now data w) =
    Refreshed
      (encode jwt_encode config
         (access_payload config user now (uuid4 (uuid_calls w))))
      (JWT_ACCESS_TOKEN_EXPIRES config).
Proof.
  intros Hget Hne Hnot Hdec Hty Hfind.
  rewrite (refresh_token_decoded _ _ _ _ _ Hget Hne Hnot Hdec).
  rewrite bool_decide_eq_true_2 by done. simpl. by rewrite Hfind.
Qed.

(** C4: a token that decodes (well-formed, signed, unexpired) and is not
    revoked, but whose [type] claim is not [refresh], is refused by
    [/refresh] with [INVALID_TOKEN_TYPE]; the state is untouched, so no
    token is minted. *)
Theorem refresh_rejects_wrong_token_type
    (now : Z) (data : Body) (t : string) (payload : Payload) (w : World) :
  body_get data "refresh_token" = Some t -> t <> "" ->
  t ∉ token_blacklist w ->
  decode t now = Return payload ->
  p_type payload <> Some "refresh" ->
  refresh_token now data w =
    (Failure 401 "Invalid token type" "INVALID_TOKEN_TYPE", w).
Proof.
  intros Hget Hne Hnot Hdec Hty.
  rewrite (refresh_token_decoded _ _ _ _ _ Hget Hne Hnot Hdec).
  by rewrite bool_decide_eq_false_2.
Qed.

(** ** Login *)

Lemma login_found
    (now : Z) (data : Body) (email password : string) (w : World) :
  body_get data "email" = Some email -> body_get data "password" = Some password ->
  email <> "" -> password <> "" ->
  login now data w =
    match db_get email (users_db w) with
    | None => (Failure 401 "Invalid credentials" "INVALID_CREDENTIALS", w)
    | Some user =>
        if negb (String.eqb (u_password user) password)
        then (Failure 401 "Invalid credentials" "INVALID_CREDENTIALS", w)
        else if negb (get_is_active user)
        then (Failure 403 "Account is deactivated" "ACCOUNT_INACTIVE", w)
        else
          (LoggedIn
             (encode jwt_encode config
                (access_payload config user now (uuid4 (uuid_calls w))))
             (encode jwt_encode config
                (refresh_payload config user now (uuid4 (S (uuid_calls w)))))
             (JWT_ACCESS_TOKEN_EXPIRES config)
             (u_id user) (u_username user) (u_email user),
           snd (draw_uuid uuid4 (snd (draw_uuid uuid4 w))))
    end.
Proof.
  intros He Hp Hene Hpne. unfold_login.
  rewrite (body_get_Some _ _ _ He), He, Hp. unfold Py.all. cbn [forallb].
  rewrite (truthy_Some _ Hene), (truthy_Some _ Hpne). simpl.
  destruct (db_get email (users_db w)) as [user|]; [|done].
  destruct (negb (String.eqb _ _)); [done|].
  destruct (negb (get_is_active user)); done.
Qed.

Lemma get_is_active_false (user : User) :
  get_is_active user = false <-> u_is_active user = Some false.
Proof. unfold get_is_active. destruct (u_is_active user) as [[]|]; naive_solver. Qed.

(** C6: for a login request carrying an email and a password, an email that
    is not in the store and a password that differs from the stored one get
    the very same response, 401 [INVALID_CREDENTIALS]; the answer is 403
    [ACCOUNT_INACTIVE] exactly when the record exists, the password matches
    and the active flag is false.  A deactivated user with a wrong password
    therefore gets [INVALID_CREDENTIALS]. *)
Theorem login_failures
    (now : Z) (data : Body) (email password : string) (w : World) :
  body_get data "email" = Some email -> body_get data "password" = Some password ->
  email <> "" -> password <> "" ->
  (db_get email (users_db w) = None ->
     login now data w = (Failure 401 "Invalid credentials" "INVALID_CREDENTIALS", w))
  /\ (forall user,
        db_get email (users_db w) = Some user -> u_password user <> password ->
        login now data w = (Failure 401 "Invalid credentials" "INVALID_CREDENTIALS", w))
  /\ (fst (login now data w) = Failure 403 "Account is deactivated" "ACCOUNT_INACTIVE"
      <-> exists user,
            db_get email (users_db w) = Some user
            /\ u_password user = password
            /\ u_is_active user = Some false).
Proof.
  clear jwt_decode.
  intros He Hp Hene Hpne. rewrite (login_found _ _ _ _ _ He Hp Hene Hpne).
  split; [|split].
  - by intros ->.
  - intros user -> Hpw. by apply String.eqb_neq in Hpw as ->.
  - destruct (db_get email (users_db w)) as [user|]; [|naive_solver].
    destruct (String.eqb_spec (u_password user) password) as [Hpw|Hpw]; simpl.
    + destruct (get_is_active user) eqn:Hact; simpl.
      * split; [discriminate|]. intros (u & [= <-] & _ & Hf).
        apply get_is_active_false in Hf. congruence.
      * split; [|done]. intros _. exists user.
        by apply get_is_active_false in Hact.
    + split; [discriminate|]. intros (u & [= <-] & ? & _). done.
Qed.

(** C7: a successful login mints two payloads for the stored user: same
    [sub] (the user's id), two different [jti] values (two successive draws
    of a collision-free entropy source), the same [iat], [exp] equal to
    [iat] plus the configured lifetime and therefore later than [iat] and,
    for the access token, earlier than for the refresh token; [email] and
    [username] are in the access payload and absent from the refresh
    payload. *)
Theorem login_mints_token_pair
    (now : Z) (data : Body) (w : World)
    (access refresh : string) (expires_in : Z) (uid uname uemail : string) :
  0 < JWT_ACCESS_TOKEN_EXPIRES config ->
  JWT_ACCESS_TOKEN_EXPIRES config < JWT_REFRESH_TOKEN_EXPIRES config ->
  Inj (=) (=) uuid4 ->
  fst (login now data w) = LoggedIn access refresh expires_in uid uname uemail ->
  exists user ap rp,
    (exists email,
       body_get data "email" = Some email /\ db_get email (users_db w) = Some user)
    /\ uid = u_id user /\ uname = u_username user /\ uemail = u_email user
    /\ expires_in = JWT_ACCESS_TOKEN_EXPIRES config
    /\ access = encode jwt_encode config ap
    /\ refresh = encode jwt_encode config rp
    /\ p_sub ap = Some (u_id user) /\ p_sub rp = Some (u_id user)
    /\ p_type ap = Some "access" /\ p_type rp = Some "refresh"
    /\ p_jti ap = Some (uuid4 (uuid_calls w))
    /\ p_jti rp = Some (uuid4 (S (uuid_calls w)))
    /\ p_jti ap <> p_jti rp
    /\ p_iat ap = Some now /\ p_iat rp = Some now
    /\ p_exp ap = Some (now + JWT_ACCESS_TOKEN_EXPIRES config)
    /\ p_exp rp = Some (now + JWT_REFRESH_TOKEN_EXPIRES config)
    /\ now < now + JWT_ACCESS_TOKEN_EXPIRES config
    /\ now + JWT_ACCESS_TOKEN_EXPIRES config < now + JWT_REFRESH_TOKEN_EXPIRES config
    /\ p_email ap = Some (u_email user) /\ p_username ap = Some (u_username user)
    /\ p_email rp = None /\ p_username rp = None.
Proof.
  intros Hpos Hlt Hinj. unfold_login.
  destruct (body_missing data); [discriminate|].
  destruct (negb (Py.all _)); [discriminate|].
  destruct (body_get data "email") as [email|] eqn:Hemail; [|discriminate].
  destruct (body_get data "password") as [password|]; [|discriminate].
  destruct (db_get email (users_db w)) as [user|] eqn:Hdb; [|discriminate].
  destruct (negb (String.eqb _ _)); [discriminate|].
  destruct (negb (get_is_active user)); [discriminate|].
  simpl. intros [= <- <- <- <- <- <-].
  exists user, (access_payload config user now (uuid4 (uuid_calls w))),
    (refresh_payload config user now (uuid4 (S (uuid_calls w)))).
  simpl. repeat split; try lia.
  - by exists email.
  - intros [= Heq%Hinj]. lia.
Qed.

(** ** Introspection *)

(** C8: [/introspect] always answers with an [active] member.  For a request
    carrying a token string: a revoked token, an expired one, a malformed
    one and one whose signature fails all give status 200 with
    [active: false]; a token that decodes gives [active: true] with its
    claims, and [active] is true in no other case.  Status 400 is the answer
    exactly when the body or the token is missing. *)
Theorem introspect_fail_soft (now : Z) (data : Body) (w : World) :
  (forall t, body_get data "token" = Some t -> t <> "" ->
     (t ∈ token_blacklist w -> introspect_token now data w = Inactive 200 None)
     /\ (t ∉ token_blacklist w ->
         introspect_token now data w =
           match decode t now with
           | Return payload => Active payload
           | Raise (Jwt ExpiredSignatureError) =>
               Inactive 200 (Some "Token has expired")
           | Raise (Jwt _) => Inactive 200 (Some "Invalid token")
           | Raise OtherException => Inactive 500 (Some "Internal server error")
           end))
  /\ active (introspect_token now data w) <> None
  /\ (active (introspect_token now data w) = Some true <->
      exists t payload,
        body_get data "token" = Some t /\ t <> "" /\ (t ∉ token_blacklist w)
        /\ decode t now = Return payload
        /\ introspect_token now data w = Active payload)
  /\ (status_code (introspect_token now data w) = 400%nat <->
      body_missing data = true \/ Py.truthy (body_get data "token") = false).
Proof.
  clear jwt_encode uuid4.
  unfold_introspect_token. split; [|split; [|split]].
  - intros t Hget Hne.
    rewrite (body_get_Some _ _ _ Hget), Hget, (truthy_Some _ Hne). simpl.
    split; intros Hbl.
    + by rewrite bool_decide_eq_true_2.
    + by rewrite bool_decide_eq_false_2.
  - destruct (body_missing data); [done|].
    destruct (negb (Py.truthy _)); [done|].
    case_bool_decide; [done|].
    by destruct (decode _ _) as [?|[[]|]].
  - destruct (body_missing data) eqn:Hmiss; simpl.
    { split; [discriminate|]. intros (t & ? & Hget & _).
      apply body_get_Some in Hget. congruence. }
    destruct (Py.truthy (body_get data "token")) eqn:Htok; simpl.
    2:{ split; [discriminate|]. intros (t & ? & Hget & Hne & _).
        rewrite Hget, (truthy_Some _ Hne) in Htok. discriminate. }
    apply truthy_inv in Htok as (t & Hget & Hne). rewrite Hget. simpl.
    case_bool_decide as Hbl.
    { split; [discriminate|]. intros (t' & ? & [= <-] & _ & Hnot & _). done. }
    destruct (decode _ _) as [payload|[[]|]] eqn:Hdec; simpl;
      try (split; [discriminate|]; intros (t' & ? & [= <-] & _ & _ & Hd & _);
           congruence).
    split; [|done]. intros _. by exists t, payload.
  - destruct (body_missing data) eqn:Hmiss; simpl; [naive_solver|].
    destruct (Py.truthy (body_get data "token")) eqn:Htok; simpl; [|naive_solver].
    case_bool_decide; simpl; [naive_solver|].
    destruct (decode _ _) as [payload|[[]|]]; simpl; naive_solver.
Qed.

(** ** Verification of refresh tokens *)

(** C10: [verify] never looks at the [type] claim.  A refresh-type token that
    is not revoked and decodes is answered as valid, with the claims the
    response reports read from its payload; for the refresh payload that
    [login] builds, which has no [email] and no [username], both are
    reported absent. *)
Theorem verify_accepts_refresh_tokens
    (now : Z) (h : option string) (t : string) (payload : Payload) (w : World) :
  bearer_token h = Some t ->
  t ∉ token_blacklist w ->
  decode t now = Return payload ->
  p_type payload = Some "refresh" ->
  verify now h w =
    Verified (p_sub payload) (p_email payload) (p_username payload)
             (p_iat payload) (p_exp payload)
  /\ (forall user iat jti,
        payload = refresh_payload config user iat jti ->
        verify now h w =
          Verified (Some (u_id user)) None None (Some iat)
                   (Some (iat + JWT_REFRESH_TOKEN_EXPIRES config))).
Proof.
  intros Hh Hnot Hdec _. rewrite (verify_bearer _ _ _ _ Hh).
  rewrite bool_decide_eq_false_2 by done. rewrite Hdec.
  split; [done|]. by intros user iat jti ->.
Qed.

(** ** Registration *)

Lemma register_supplied
    (now : Z) (data : Body) (username email password : string) (w : World) :
  body_get data "username" = Some username ->
  body_get data "email" = Some email ->
  body_get data "password" = Some password ->
  username <> "" -> email <> "" -> password <> "" ->
  register now data w =
    if db_mem email (users_db w)
    then (Failure 409 "User with this email already exists" "USER_EXISTS", w)
    else
      let user := {| u_id := uuid4 (uuid_calls w);
                     u_username := username;
                     u_email := email;
                     u_password := password;
                     u_created_at := now;
                     u_is_active := Some true |} in
      (Registered (u_id user) username email,
       {| users_db := db_set email user (users_db w);
          token_blacklist := token_blacklist w;
          uuid_calls := S (uuid_calls w) |}).
Proof.
  intros Hu He Hp Hune Hene Hpne. unfold_register.
  rewrite (body_get_Some _ _ _ He), Hu, He, Hp. unfold Py.all. cbn [forallb].
  rewrite (truthy_Some _ Hune), (truthy_Some _ Hene), (truthy_Some _ Hpne).
  simpl. by destruct (db_mem email (users_db w)).
Qed.

(** Whatever else a registration request carries, an email that is already a
    key of the store leaves the state as it was and is never answered 201. *)
Lemma register_existing_email (now : Z) (data : Body) (email : string) (w : World) :
  body_get data "email" = Some email ->
  db_mem email (users_db w) = true ->
  snd (register now data w) = w /\ status_code (fst (register now data w)) <> 201%nat.
Proof.
  intros He Hmem. unfold_register. rewrite He.
  destruct (body_missing data); [done|].
  destruct (negb (Py.all _)); [done|].
  destruct (body_get data "username"); [|done].
  destruct (body_get data "password"); [|done].
  by rewrite Hmem.
Qed.

(** Every id in the store was drawn from the entropy source, in every state
    the service can reach. *)
Lemma ids_drawn_initial : ids_drawn uuid4 initial_world.
Proof. by intros email user ?%elem_of_nil. Qed.

Lemma ids_drawn_weaken (w w' : World) :
  users_db w' = users_db w -> (uuid_calls w <= uuid_calls w')%nat ->
  ids_drawn uuid4 w -> ids_drawn uuid4 w'.
Proof.
  intros Hdb Hle Hw email user Hin. rewrite Hdb in Hin.
  destruct (Hw email user Hin) as (n & ? & ?). exists n. split; [lia|done].
Qed.

Lemma ids_drawn_handle (now : Z) (req : Request) (w : World) :
  ids_drawn uuid4 w -> ids_drawn uuid4 (snd (handle now req w)).
Proof.
  intros Hw. destruct req as [data|data|h|h|data|data|data]; simpl; try done.
  - unfold_register.
    destruct (body_missing data); [done|].
    destruct (negb (Py.all _)); [done|].
    destruct (body_get data "username"); [|done].
    destruct (body_get data "email") as [email|]; [|done].
    destruct (body_get data "password"); [|done].
    destruct (db_mem email (users_db w)); [done|]. simpl.
    intros e u [Hin| ->]%db_set_elem_of.
    + destruct (Hw e u Hin) as (n & ? & ?). exists n. simpl. split; [lia|done].
    + exists (uuid_calls w). simpl. split; [lia|done].
  - unfold_login.
    destruct (body_missing data); [done|].
    destruct (negb (Py.all _)); [done|].
    destruct (body_get data "email") as [email|]; [|done].
    destruct (body_get data "password"); [|done].
    destruct (db_get email (users_db w)); [|done].
    destruct (negb (String.eqb _ _)); [done|].
    destruct (negb (get_is_active _)); [done|]. simpl.
    apply (ids_drawn_weaken w); simpl; [done|lia|done].
  - unfold logout.
    destruct (negb (Py.truthy h)); [done|].
    destruct (bad_auth_format _); [done|]. simpl.
    apply (ids_drawn_weaken w); simpl; [done|lia|done].
  - unfold_refresh_token.
    destruct (body_missing data); [done|].
    destruct (negb (Py.truthy _)); [done|].
    case_bool_decide; [done|].
    destruct (decode _ _); [|done].
    destruct (negb (bool_decide _)); [done|].
    destruct (find_user_by_id _ _); [|done]. simpl.
    apply (ids_drawn_weaken w); simpl; [done|lia|done].
  - unfold revoke_token.
    destruct (body_missing data); [done|].
    destruct (negb (Py.truthy _)); [done|]. simpl.
    apply (ids_drawn_weaken w); simpl; [done|lia|done].
Qed.

Lemma ids_drawn_run (reqs : list (Z * Request)) (w : World) :
  ids_drawn uuid4 w -> ids_drawn uuid4 (run reqs w).
Proof.
  revert w. induction reqs as [|[now req] rest IH]; intros w Hw; simpl; [done|].
  apply IH. by apply ids_drawn_handle.
Qed.



(** C9, as the code has it: a registration request carrying username, email
    and password is
    answered 409 [USER_EXISTS] when the email is already a key of the store,
    and the state is then unchanged.  When the email is new, one record is
    appended under that email, active, with the id just drawn; with a
    collision-free entropy source that id differs from every id in the
    store; the answer is 201. *)
Theorem register_conflict_or_insert
    (now : Z) (data : Body) (username email password : string) (w : World) :
  body_get data "username" = Some username ->
  body_get data "email" = Some email ->
  body_get data "password" = Some password ->
  username <> "" -> email <> "" -> password <> "" ->
  (db_mem email (users_db w) = true ->
     register now data w =
       (Failure 409 "User with this email already exists" "USER_EXISTS", w))
  /\ (db_mem email (users_db w) = false ->
      let user := {| u_id := uuid4 (uuid_calls w);
                     u_username := username;
                     u_email := email;
                     u_password := password;
                     u_created_at := now;
                     u_is_active := Some true |} in
      register now data w =
        (Registered (u_id user) username email,
         {| users_db := (users_db w ++ [(email, user)])%list;
            token_blacklist := token_blacklist w;
            uuid_calls := S (uuid_calls w) |})
      /\ status_code (fst (register now data w)) = 201%nat
      /\ db_get email (users_db (snd (register now data w))) = Some user
      /\ (forall other, other <> email ->
            db_get other (users_db (snd (register now data w)))
            = db_get other (users_db w))
      /\ (Inj (=) (=) uuid4 -> ids_drawn uuid4 w ->
          forall e u, (e, u) ∈ users_db w -> u_id u <> u_id user)).
Proof.
  intros Hu He Hp Hune Hene Hpne.
  rewrite (register_supplied _ _ _ _ _ _ Hu He Hp Hune Hene Hpne).
  split; intros Hmem; rewrite Hmem; [done|]. simpl.
  apply db_mem_get in Hmem.
  repeat split.
  - by rewrite (db_set_fresh _ _ _ Hmem).
  - apply db_get_set_eq.
  - intros other Hne. by apply db_get_set_ne.
  - intros Hinj Hids e u Hin Heq.
    destruct (Hids e u Hin) as (n & Hlt & Hid).
    rewrite Hid in Heq. apply Hinj in Heq. lia.
Qed.

End RouteProperties.

(** ** Expiry, signature and revocation *)

Section ExpiryAndSignature.

Set Default Proof Using "Type".

Variable load : string -> option PyJWT.Segments.
Variable verify_signature : string -> string -> string -> string -> bool.
Variable decode_payload : string -> option Payload.
Variable registered_claims : string -> PyJWT.Registered.
Variable config : Config.

Local Abbreviation jwt_decode :=
  (PyJWT.decode load verify_signature decode_payload registered_claims).
Local Abbreviation unverified_exp := (PyJWT.unverified_exp load decode_payload).
Local Abbreviation signature_ok := (PyJWT.signature_ok load verify_signature).
Local Abbreviation not_yet_valid :=
  (PyJWT.not_yet_valid load decode_payload registered_claims).

(** The codec on a token whose payload carries an [exp] that has passed: a
    signature that fails is reported first, then an [iat] or [nbf] in the
    future, and only then the expiry. *)
Lemma decode_past_exp (t key : string) (algorithms : list string) (now exp : Z) :
  unverified_exp t = Some exp -> exp < now ->
  jwt_decode t key algorithms now =
    if signature_ok t key algorithms
    then (if not_yet_valid t now
          then Raise (Jwt ImmatureSignatureError)
          else Raise (Jwt ExpiredSignatureError))
    else match load t with
         | Some seg =>
             match PyJWT.seg_alg_known seg algorithms with
             | true => Raise (Jwt InvalidSignatureError)
             | false => Raise (Jwt InvalidAlgorithmError)
             end
         | None => Raise (Jwt DecodeError)
         end.
Proof.
  unfold PyJWT.unverified_exp, PyJWT.decode, PyJWT.signature_ok,
    PyJWT.seg_alg_known, PyJWT.not_yet_valid.
  destruct (load t) as [seg|]; simpl; [|discriminate].
  destruct (decode_payload (PyJWT.seg_payload seg)) as [payload|] eqn:Hp; simpl;
    [|discriminate].
  intros Hexp Hlt.
  destruct (PyJWT.seg_alg seg) as [alg|]; [|done].
  case_bool_decide; simpl; [|done].
  destruct (verify_signature _ _ _ _); simpl; [|done].
  unfold PyJWT.validate_claims, PyJWT.validate_iat, PyJWT.validate_nbf,
    PyJWT.validate_exp.
  destruct (PyJWT.in_future (p_iat payload) now); simpl; [done|].
  destruct (PyJWT.in_future _ now); simpl; [done|].
  rewrite Hexp. destruct (Z.leb_spec exp now); [done|lia].
Qed.

(** C2, as the code has it: for a token whose [exp] lies in the past,
    [verify] never answers with claims.  It answers [TOKEN_EXPIRED] when the
    token is not revoked, its signature verifies and neither its [iat] nor
    its [nbf] lies in the future.  A revoked token is answered
    [TOKEN_REVOKED]; a token whose signature does not verify, or whose [iat]
    or [nbf] lies in the future, is answered [INVALID_TOKEN], expired or
    not. *)
Theorem verify_expired_token
    (now : Z) (h : option string) (t : string) (exp : Z) (w : World) :
  bearer_token h = Some t ->
  unverified_exp t = Some exp ->
  exp < now ->
  (forall sub email username iat exp',
     verify jwt_decode config now h w <> Verified sub email username iat exp')
  /\ (t ∈ token_blacklist w ->
      verify jwt_decode config now h w
      = Failure 401 "Token has been revoked" "TOKEN_REVOKED")
  /\ (t ∉ token_blacklist w ->
      signature_ok t (JWT_SECRET_KEY config) [JWT_ALGORITHM config] = true ->
      not_yet_valid t now = false ->
      verify jwt_decode config now h w
      = Failure 401 "Token has expired" "TOKEN_EXPIRED")
  /\ (t ∉ token_blacklist w ->
      signature_ok t (JWT_SECRET_KEY config) [JWT_ALGORITHM config] = false ->
      verify jwt_decode config now h w
      = Failure 401 "Invalid token" "INVALID_TOKEN")
  /\ (t ∉ token_blacklist w ->
      signature_ok t (JWT_SECRET_KEY config) [JWT_ALGORITHM config] = true ->
      not_yet_valid t now = true ->
      verify jwt_decode config now h w
      = Failure 401 "Invalid token" "INVALID_TOKEN").
Proof.
  intros Hh Hexp Hlt. rewrite (verify_bearer _ _ _ _ _ _ Hh).
  unfold decode. rewrite (decode_past_exp _ _ _ _ _ Hexp Hlt).
  split; [|split; [|split; [|split]]].
  - intros sub email username iat exp'. case_bool_decide; [done|].
    destruct (signature_ok _ _ _); [by destruct (not_yet_valid t now)|].
    destruct (load t) as [seg|]; [|done].
    by destruct (PyJWT.seg_alg_known seg _).
  - intros Hbl. by rewrite bool_decide_eq_true_2.
  - intros Hbl Hsig Hval. by rewrite bool_decide_eq_false_2, Hsig, Hval.
  - intros Hbl Hsig. rewrite bool_decide_eq_false_2, Hsig by done.
    destruct (load t) as [seg|]; [|done].
    by destruct (PyJWT.seg_alg_known seg _).
  - intros Hbl Hsig Hval. by rewrite bool_decide_eq_false_2, Hsig, Hval.
Qed.

End ExpiryAndSignature.

(** ** Concrete runs on the demo deployment *)

Module Runs.
Import Demo.

Local Abbreviation verify_postdated := (verify Postdated.jwt_decode config).
Local Abbreviation verify := (verify jwt_decode config).
Local Abbreviation login := (login jwt_encode uuid4 config).
Local Abbreviation register := (register uuid4).
Local Abbreviation refresh_token :=
  (refresh_token jwt_encode jwt_decode uuid4 config).
Local Abbreviation introspect_token := (introspect_token jwt_decode config).
Local Abbreviation handle := (handle jwt_encode jwt_decode uuid4 config).
Local Abbreviation run := (run jwt_encode jwt_decode uuid4 config).

(** A store filled from outside the routes, holding bob with his active flag
    cleared: [login] refuses him with [ACCOUNT_INACTIVE], while [/refresh]
    finds his record by id and never reads the flag.  No sequence of
    requests leads to such a store ([all_active_run]). *)
Theorem refresh_mints_for_deactivated_user :
  find_user_by_id (Some "id-bob") (users_db world) = Some bob
  /\ u_is_active bob = Some false
  /\ fst (login 5000 (json [("email", "bob@x.com"); ("password", "pw-b")]) world)
     = Failure 403 "Account is deactivated" "ACCOUNT_INACTIVE"
  /\ decode jwt_decode config (signed "bob-refresh") 5000
     = Return (claims "id-bob" "refresh" 605800)
  /\ refresh_token 5000 (json [("refresh_token", signed "bob-refresh")]) world
     = (Refreshed (encode jwt_encode config (access_payload config bob 5000 (uuid4 0)))
          3600,
        {| users_db := users_db world;
           token_blacklist := token_blacklist world;
           uuid_calls := 1 |}).
Proof. repeat split; vm_compute; reflexivity. Qed.

(** C2 does not hold as stated: at time 5000 the token [alice-old] has an
    [exp] of 2000.  Once revoked, its verification is answered
    [TOKEN_REVOKED]; signed with another key and not revoked, it is
    answered [INVALID_TOKEN].  Neither answer is [TOKEN_EXPIRED]. *)
Lemma verify_expired_not_always_expired :
  PyJWT.unverified_exp load decode_payload (signed "alice-old") = Some 2000
  /\ PyJWT.unverified_exp load decode_payload (forged "alice-old") = Some 2000
  /\ 2000 < 5000
  /\ verify 5000 (bearer (signed "alice-old"))
       (snd (revoke_token (json [("token", signed "alice-old")]) world))
     = Failure 401 "Token has been revoked" "TOKEN_REVOKED"
  /\ verify 5000 (bearer (forged "alice-old")) world
     = Failure 401 "Invalid token" "INVALID_TOKEN"
  /\ Failure 401 "Token has been revoked" "TOKEN_REVOKED"
     <> Failure 401 "Token has expired" "TOKEN_EXPIRED"
  /\ Failure 401 "Invalid token" "INVALID_TOKEN"
     <> Failure 401 "Token has expired" "TOKEN_EXPIRED".
Proof.
  split; [vm_compute; reflexivity|]. split; [vm_compute; reflexivity|].
  split; [lia|].
  split; [vm_compute; reflexivity|]. split; [vm_compute; reflexivity|].
  split; discriminate.
Qed.

Lemma verify_expired_token_witness :
  verify 5000 (bearer (signed "alice-old")) world
  = Failure 401 "Token has expired" "TOKEN_EXPIRED"
  /\ verify_postdated 5000 (bearer (signed "iat-ahead")) world
     = Failure 401 "Invalid token" "INVALID_TOKEN"
  /\ verify_postdated 5000 (bearer (signed "nbf-ahead")) world
     = Failure 401 "Invalid token" "INVALID_TOKEN".
Proof.
  split; [|split].
  - apply (verify_expired_token load verify_signature decode_payload
             registered_claims config
             5000 (bearer (signed "alice-old")) (signed "alice-old") 2000 world).
    + vm_compute; reflexivity.
    + vm_compute; reflexivity.
    + lia.
    + vm_compute. set_solver.
    + vm_compute; reflexivity.
    + vm_compute; reflexivity.
  - apply (verify_expired_token load verify_signature Postdated.decode_payload
             Postdated.registered_claims config
             5000 (bearer (signed "iat-ahead")) (signed "iat-ahead") 2000 world).
    + vm_compute; reflexivity.
    + vm_compute; reflexivity.
    + lia.
    + vm_compute. set_solver.
    + vm_compute; reflexivity.
    + vm_compute; reflexivity.
  - apply (verify_expired_token load verify_signature Postdated.decode_payload
             Postdated.registered_claims config
             5000 (bearer (signed "nbf-ahead")) (signed "nbf-ahead") 2000 world).
    + vm_compute; reflexivity.
    + vm_compute; reflexivity.
    + lia.
    + vm_compute. set_solver.
    + vm_compute; reflexivity.
    + vm_compute; reflexivity.
Defined.

Lemma verify_revocation_first_witness :
  verify 5000 (bearer (signed "alice-access"))
    (run [(5001, POST_login (json [("email", "alice@x.com"); ("password", "pw-a")]))]
       (snd (revoke_token (json [("token", signed "alice-access")]) world)))
  = Failure 401 "Token has been revoked" "TOKEN_REVOKED".
Proof.
  apply (verify_revocation_first jwt_encode jwt_decode uuid4 config
           5000 (bearer (signed "alice-access")) (signed "alice-access")
           (json [("token", signed "alice-access")]) world).
  - vm_compute; reflexivity.
  - vm_compute; reflexivity.
Defined.

Lemma revoke_unconditional_idempotent_permanent_witness :
  revoke_token (json [("token", forged "alice-old")]) world
  = (RevokedOk, blacklist_add (forged "alice-old") world).
Proof.
  apply (revoke_unconditional_idempotent_permanent
           jwt_encode jwt_decode uuid4 config
           (json [("token", forged "alice-old")]) (forged "alice-old") world).
  - vm_compute; reflexivity.
  - discriminate.
Defined.

Lemma refresh_rejects_wrong_token_type_witness :
  refresh_token 4000 (json [("refresh_token", signed "alice-access")]) world
  = (Failure 401 "Invalid token type" "INVALID_TOKEN_TYPE", world).
Proof.
  apply (refresh_rejects_wrong_token_type jwt_encode jwt_decode uuid4 config
           4000 (json [("refresh_token", signed "alice-access")])
           (signed "alice-access") (claims "id-alice" "access" 4600) world).
  - vm_compute; reflexivity.
  - discriminate.
  - vm_compute. set_solver.
  - vm_compute; reflexivity.
  - discriminate.
Defined.

Lemma login_failures_witness :
  login 5000 (json [("email", "bob@x.com"); ("password", "wrong")]) world
  = (Failure 401 "Invalid credentials" "INVALID_CREDENTIALS", world).
Proof.
  apply (login_failures jwt_encode uuid4 config 5000
           (json [("email", "bob@x.com"); ("password", "wrong")])
           "bob@x.com" "wrong" world) with (user := bob).
  - vm_compute; reflexivity.
  - vm_compute; reflexivity.
  - discriminate.
  - discriminate.
  - vm_compute; reflexivity.
  - discriminate.
Defined.

Lemma login_mints_token_pair_witness :
  exists user ap rp,
    (exists email,
       body_get (json [("email", "alice@x.com"); ("password", "pw-a")]) "email"
       = Some email
       /\ db_get email (users_db world) = Some user)
    /\ "id-alice" = u_id user /\ "alice" = u_username user
    /\ "alice@x.com" = u_email user
    /\ 3600 = JWT_ACCESS_TOKEN_EXPIRES config
    /\ encode jwt_encode config (access_payload config alice 5000 (uuid4 0))
       = encode jwt_encode config ap
    /\ encode jwt_encode config (refresh_payload config alice 5000 (uuid4 1))
       = encode jwt_encode config rp
    /\ p_sub ap = Some (u_id user) /\ p_sub rp = Some (u_id user)
    /\ p_type ap = Some "access" /\ p_type rp = Some "refresh"
    /\ p_jti ap = Some (uuid4 (uuid_calls world))
    /\ p_jti rp = Some (uuid4 (S (uuid_calls world)))
    /\ p_jti ap <> p_jti rp
    /\ p_iat ap = Some 5000 /\ p_iat rp = Some 5000
    /\ p_exp ap = Some (5000 + JWT_ACCESS_TOKEN_EXPIRES config)
    /\ p_exp rp = Some (5000 + JWT_REFRESH_TOKEN_EXPIRES config)
    /\ 5000 < 5000 + JWT_ACCESS_TOKEN_EXPIRES config
    /\ 5000 + JWT_ACCESS_TOKEN_EXPIRES config
       < 5000 + JWT_REFRESH_TOKEN_EXPIRES config
    /\ p_email ap = Some (u_email user) /\ p_username ap = Some (u_username user)
    /\ p_email rp = None /\ p_username rp = None.
Proof.
  apply (login_mints_token_pair jwt_encode uuid4 config 5000
           (json [("email", "alice@x.com"); ("password", "pw-a")]) world).
  - vm_compute; reflexivity.
  - vm_compute; reflexivity.
  - unfold uuid4. apply pretty_nat_inj.
  - vm_compute; reflexivity.
Defined.

Lemma introspect_fail_soft_witness :
  introspect_token 5000 (json [("token", forged "alice-refresh")]) world
  = Inactive 200 (Some "Invalid token").
Proof.
  destruct (introspect_fail_soft jwt_decode config 5000
              (json [("token", forged "alice-refresh")]) world) as [H _].
  destruct (H (forged "alice-refresh")) as [_ Hnot].
  - vm_compute; reflexivity.
  - discriminate.
  - rewrite Hnot; [vm_compute; reflexivity|]. vm_compute. set_solver.
Defined.

Lemma verify_accepts_refresh_tokens_witness :
  verify 5000 (bearer (signed "alice-refresh")) world
  = Verified (Some "id-alice") None None (Some 1000) (Some 605800).
Proof.
  apply (verify_accepts_refresh_tokens jwt_decode config 5000
           (bearer (signed "alice-refresh")) (signed "alice-refresh")
           (claims "id-alice" "refresh" 605800) world).
  - vm_compute; reflexivity.
  - vm_compute. set_solver.
  - vm_compute; reflexivity.
  - vm_compute; reflexivity.
Defined.

(** C9 does not hold as stated: alice's email is a key of the store, yet a
    registration with that email and no password is answered 400
    [MISSING_FIELDS], not 409; the fields are validated before the store is
    consulted. *)
Lemma register_existing_email_missing_field :
  db_mem "alice@x.com" (users_db world) = true
  /\ body_get (json [("username", "al"); ("email", "alice@x.com")]) "email"
     = Some "alice@x.com"
  /\ register 5000 (json [("username", "al"); ("email", "alice@x.com")]) world
     = (Failure 400 "Username, email, and password are required" "MISSING_FIELDS",
        world)
  /\ status_code
       (fst (register 5000 (json [("username", "al"); ("email", "alice@x.com")])
               world)) <> 409%nat.
Proof.
  split; [vm_compute; reflexivity|]. split; [vm_compute; reflexivity|].
  split; [vm_compute; reflexivity|]. vm_compute. discriminate.
Qed.

Lemma register_conflict_or_insert_witness :
  register 5000
    (json [("username", "al"); ("email", "alice@x.com"); ("password", "x")]) world
  = (Failure 409 "User with this email already exists" "USER_EXISTS", world)
  /\ status_code
       (fst (register 5000
          (json [("username", "dave"); ("email", "dave@x.com"); ("password", "pw-d")])
          (run [(10, POST_register
                       (json [("username", "carol"); ("email", "carol@x.com");
                              ("password", "pw-c")]))]
               initial_world))) = 201%nat
  /\ (forall e u,
        (e, u) ∈ users_db
          (run [(10, POST_register
                       (json [("username", "carol"); ("email", "carol@x.com");
                              ("password", "pw-c")]))]
               initial_world) ->
        u_id u <> uuid4 1).
Proof.
  split; [|split].
  - apply (register_conflict_or_insert uuid4 5000
             (json [("username", "al"); ("email", "alice@x.com"); ("password", "x")])
             "al" "alice@x.com" "x" world);
      ((vm_compute; reflexivity) || discriminate).
  - apply (register_conflict_or_insert uuid4 5000
             (json [("username", "dave"); ("email", "dave@x.com"); ("password", "pw-d")])
             "dave" "dave@x.com" "pw-d");
      ((vm_compute; reflexivity) || discriminate).
  - apply (register_conflict_or_insert uuid4 5000
             (json [("username", "dave"); ("email", "dave@x.com"); ("password", "pw-d")])
             "dave" "dave@x.com" "pw-d");
      try ((vm_compute; reflexivity) || discriminate).
    + unfold uuid4. apply pretty_nat_inj.
    + apply (ids_drawn_run jwt_encode jwt_decode uuid4 config), ids_drawn_initial.
Defined.

End Runs.

(** * The service as a whole *)

Lemma body_missing_get (data : Body) (k : string) :
  body_missing data = true -> body_get data k = None.
Proof.
  destruct data as [m|]; simpl; [|done].
  intros ->%bool_decide_eq_true. apply lookup_empty.
Qed.

Lemma db_get_app (email k : string) (u : User) (db : UsersDb) :
  db_get email (db ++ [(k, u)])%list =
    match db_get email db with
    | Some x => Some x
    | None => if String.eqb k email then Some u else None
    end.
Proof.
  induction db as [|[k' v] rest IH]; simpl; [done|].
  by destruct (String.eqb k' email).
Qed.

Lemma db_get_None_keys (email : string) (db : UsersDb) :
  db_get email db = None <-> email ∉ map fst db.
Proof.
  induction db as [|[k v] rest IH]; simpl.
  - split; [intros _; apply not_elem_of_nil|done].
  - destruct (String.eqb_spec k email) as [->|Hne].
    + split; [discriminate|]. intros H. exfalso. apply H. set_solver.
    + rewrite IH. split.
      * intros H [?|?]%elem_of_cons; [congruence|done].
      * intros H Hin. apply H. set_solver.
Qed.

Lemma db_get_of_elem (email : string) (u : User) (db : UsersDb) :
  NoDup (map fst db) -> (email, u) ∈ db -> db_get email db = Some u.
Proof.
  induction db as [|[k v] rest IH]; simpl.
  - by intros _ ?%elem_of_nil.
  - intros [Hk Hnd]%NoDup_cons [[= -> ->]|Hin]%elem_of_cons.
    + by rewrite String.eqb_refl.
    + destruct (String.eqb_spec k email) as [->|Hne]; [|by apply IH].
      exfalso. apply Hk. apply list_elem_of_fmap. by exists (email, u).
Qed.

Lemma find_user_by_id_unique (db : UsersDb) (email : string) (user : User) :
  NoDup (map (λ kv, u_id (snd kv)) db) ->
  (email, user) ∈ db ->
  find_user_by_id (Some (u_id user)) db = Some user.
Proof.
  induction db as [|[k v] rest IH]; simpl.
  - by intros _ ?%elem_of_nil.
  - intros [Hid Hnd]%NoDup_cons [[= -> ->]|Hin]%elem_of_cons.
    + by rewrite bool_decide_eq_true_2.
    + case_bool_decide as Heq; [|by apply IH].
      exfalso. apply Hid. apply list_elem_of_fmap. exists (email, user).
      split; [|done]. simpl. congruence.
Qed.

Lemma store_wf_initial (uuid4 : nat -> string) : store_wf uuid4 initial_world.
Proof.
  unfold store_wf. simpl. split; [apply NoDup_nil_2|].
  split; [apply NoDup_nil_2|]. by intros ? ? ?%elem_of_nil.
Qed.

Lemma isspace_lower_char (c : ascii) :
  Py.isspace c = true -> Py.lower_char c = c.
Proof.
  destruct c as [[] [] [] [] [] [] [] []]; vm_compute; (reflexivity || discriminate).
Qed.

Lemma lower_no_space (s : string) :
  forallb (fun c => negb (Py.isspace c)) (list_ascii_of_string (Py.lower s)) = true ->
  forallb (fun c => negb (Py.isspace c)) (list_ascii_of_string s) = true.
Proof.
  induction s as [|c s IH]; simpl; [done|].
  intros [Hc Hs]%andb_true_iff. rewrite (IH Hs), andb_true_r.
  destruct (Py.isspace c) eqn:E; [|done].
  by rewrite (isspace_lower_char c E), E in Hc.
Qed.

Lemma all_false_iff (l : list (option string)) :
  Py.all l = false <-> exists o, o ∈ l /\ Py.truthy o = false.
Proof.
  unfold Py.all. induction l as [|o l IH]; simpl.
  - split; [discriminate|]. by intros (? & ?%elem_of_nil & _).
  - rewrite andb_false_iff, IH. split.
    + intros [H | (o' & Hin & H)]; [exists o|exists o']; split; (set_solver || done).
    + intros (o' & [->|Hin]%elem_of_cons & H); [by left|right; by exists o'].
Qed.

Section ServiceProperties.

Set Default Proof Using "Type".

Variable jwt_encode : Payload -> string -> string -> string.
Variable jwt_decode : string -> string -> list string -> Z -> result Payload.
Variable uuid4 : nat -> string.
Variable config : Config.

Ltac unfold_verify := unfold verify.
Ltac unfold_login := unfold login.
Ltac unfold_register := unfold register.
Ltac unfold_refresh_token := unfold refresh_token.
Ltac unfold_introspect_token := unfold introspect_token.

Local Abbreviation verify := (verify jwt_decode config).
Local Abbreviation decode := (decode jwt_decode config).
Local Abbreviation encode := (encode jwt_encode config).
Local Abbreviation login := (login jwt_encode uuid4 config).
Local Abbreviation register := (register uuid4).
Local Abbreviation refresh_token := (refresh_token jwt_encode jwt_decode uuid4 config).
Local Abbreviation introspect_token := (introspect_token jwt_decode config).
Local Abbreviation handle := (handle jwt_encode jwt_decode uuid4 config).
Local Abbreviation run := (run jwt_encode jwt_decode uuid4 config).

(** What one request does to the state. *)
Lemma handle_world (now : Z) (req : Request) (w : World) :
  token_blacklist (snd (handle now req w)) = token_blacklist w ∪ revoked_by req
  /\ (uuid_calls w <= uuid_calls (snd (handle now req w)))%nat
  /\ (users_db (snd (handle now req w)) = users_db w
      \/ exists data username email password,
           req = POST_register data
           /\ body_get data "username" = Some username
           /\ body_get data "email" = Some email
           /\ body_get data "password" = Some password
           /\ db_get email (users_db w) = None
           /\ uuid_calls (snd (handle now req w)) = S (uuid_calls w)
           /\ users_db (snd (handle now req w)) =
                (users_db w
                 ++ [(email, mkUser (uuid4 (uuid_calls w)) username email password
                               now (Some true))])%list).
Proof.
  destruct req as [data|data|h|h|data|data|data]; simpl.
  - unfold_register.
    destruct (body_missing data); [split; [set_solver|auto]|].
    destruct (negb (Py.all _)); [split; [set_solver|auto]|].
    destruct (body_get data "username") as [username|] eqn:Hu;
      [|split; [set_solver|auto]].
    destruct (body_get data "email") as [email|] eqn:He;
      [|split; [set_solver|auto]].
    destruct (body_get data "password") as [password|] eqn:Hp;
      [|split; [set_solver|auto]].
    destruct (db_mem email (users_db w)) eqn:Hmem; [split; [set_solver|auto]|].
    apply db_mem_get in Hmem. simpl.
    split; [set_solver|]. split; [lia|]. right.
    exists data, username, email, password.
    rewrite (db_set_fresh _ _ _ Hmem). done.
  - unfold_login.
    destruct (body_missing data); [split; [set_solver|auto]|].
    destruct (negb (Py.all _)); [split; [set_solver|auto]|].
    destruct (body_get data "email") as [email|]; [|split; [set_solver|auto]].
    destruct (body_get data "password"); [|split; [set_solver|auto]].
    destruct (db_get email (users_db w)); [|split; [set_solver|auto]].
    destruct (negb (String.eqb _ _)); [split; [set_solver|auto]|].
    destruct (negb (get_is_active _)); [split; [set_solver|auto]|].
    simpl. split; [set_solver|]. split; [lia|auto].
  - split; [set_solver|auto].
  - unfold logout, bearer_token.
    destruct (negb (Py.truthy h)); [split; [set_solver|auto]|].
    destruct (bad_auth_format _); [split; [set_solver|auto]|].
    simpl. split; [set_solver|auto].
  - unfold_refresh_token.
    destruct (body_missing data); [split; [set_solver|auto]|].
    destruct (negb (Py.truthy _)); [split; [set_solver|auto]|].
    case_bool_decide; [split; [set_solver|auto]|].
    destruct (decode _ _); [|split; [set_solver|auto]].
    destruct (negb (bool_decide _)); [split; [set_solver|auto]|].
    destruct (find_user_by_id _ _); [|split; [set_solver|auto]].
    simpl. split; [set_solver|]. split; [lia|auto].
  - split; [set_solver|auto].
  - unfold revoke_token.
    destruct (body_missing data) eqn:Hmiss.
    { rewrite (body_missing_get _ "token" Hmiss). split; [set_solver|auto]. }
    destruct (body_get data "token") as [t|]; simpl; [|split; [set_solver|auto]].
    destruct (String.eqb t ""); simpl; split; (set_solver || auto).
Qed.

Lemma handle_db_get (now : Z) (req : Request) (w : World) (email : string) (user : User) :
  db_get email (users_db w) = Some user ->
  db_get email (users_db (snd (handle now req w))) = Some user.
Proof.
  intros Hget. destruct (handle_world now req w) as (_ & _ & [-> | Hreg]); [done|].
  destruct Hreg as (data & un & em & pw & _ & _ & _ & _ & _ & _ & ->).
  by rewrite db_get_app, Hget.
Qed.

Lemma run_db_get (reqs : list (Z * Request)) (w : World) (email : string) (user : User) :
  db_get email (users_db w) = Some user ->
  db_get email (users_db (run reqs w)) = Some user.
Proof.
  revert w. induction reqs as [|[now req] rest IH]; intros w Hget; simpl; [done|].
  apply IH. by apply handle_db_get.
Qed.

Lemma run_blacklist (reqs : list (Z * Request)) (w : World) :
  token_blacklist (run reqs w) = token_blacklist w ∪ revoked_in reqs.
Proof.
  revert w. induction reqs as [|[now req] rest IH]; intros w; simpl.
  - set_solver.
  - rewrite IH. destruct (handle_world now req w) as (-> & _). set_solver.
Qed.

Lemma store_wf_handle (now : Z) (req : Request) (w : World) :
  Inj (=) (=) uuid4 -> store_wf uuid4 w -> store_wf uuid4 (snd (handle now req w)).
Proof.
  intros Hinj (Hkeys & Hids & Hrec).
  destruct (handle_world now req w) as (_ & Hcalls & [Hdb | Hreg]).
  - unfold store_wf. rewrite Hdb. split; [done|]. split; [done|].
    intros email user Hin. destruct (Hrec email user Hin) as (? & n & ? & ?).
    split; [done|]. exists n. split; [lia|done].
  - destruct Hreg as (data & un & em & pw & _ & _ & _ & _ & Hnew & Hc & Hdb).
    unfold store_wf. rewrite Hdb, Hc, !map_app. simpl.
    split; [|split].
    + apply NoDup_app. split; [done|]. split; [|apply NoDup_singleton].
      intros k Hk ->%list_elem_of_singleton. by apply db_get_None_keys in Hnew.
    + apply NoDup_app. split; [done|]. split; [|apply NoDup_singleton].
      intros i Hi ->%list_elem_of_singleton.
      apply list_elem_of_fmap in Hi as ([k u] & Hid & Hin). simpl in Hid.
      destruct (Hrec k u Hin) as (_ & n & Hlt & Hn).
      rewrite Hn in Hid. apply Hinj in Hid. lia.
    + intros email user [Hin | Hin]%elem_of_app.
      * destruct (Hrec email user Hin) as (? & n & ? & ?).
        split; [done|]. exists n. split; [lia|done].
      * apply list_elem_of_singleton in Hin as [= -> ->]. simpl.
        split; [done|]. exists (uuid_calls w). split; [lia|done].
Qed.

Lemma store_wf_run (reqs : list (Z * Request)) (w : World) :
  Inj (=) (=) uuid4 -> store_wf uuid4 w -> store_wf uuid4 (run reqs w).
Proof.
  intros Hinj. revert w.
  induction reqs as [|[now req] rest IH]; intros w Hw; simpl; [done|].
  apply IH. by apply store_wf_handle.
Qed.

(** ** State changes *)

(** X1: after any sequence of requests the blacklist is the one the
    service started from together with exactly the tokens that [/logout]
    and [/revoke] requests of the sequence carried; no other request, and no
    other token, changes it. *)
Theorem blacklist_after_run (reqs : list (Z * Request)) (w : World) (t : string) :
  token_blacklist (run reqs w) = token_blacklist w ∪ revoked_in reqs
  /\ (t ∈ token_blacklist (run reqs w) <->
      t ∈ token_blacklist w
      \/ exists now req, (now, req) ∈ reqs /\ t ∈ revoked_by req).
Proof.
  split; [apply run_blacklist|]. rewrite run_blacklist, elem_of_union.
  assert (Hin : t ∈ revoked_in reqs <->
                exists now req, (now, req) ∈ reqs /\ t ∈ revoked_by req).
  { clear. induction reqs as [|[now req] rest IH]; simpl.
    - split; [set_solver|]. intros (? & ? & ?%elem_of_nil & _). done.
    - rewrite elem_of_union, IH. split.
      + intros [H | (n & r & Hr & Ht)].
        * exists now, req. split; [set_solver|done].
        * exists n, r. split; [set_solver|done].
      + intros (n & r & [[= -> ->] | Hr]%elem_of_cons & Ht); [by left|].
        right. by exists n, r. }
  by rewrite Hin.
Qed.

(** X2: the store only grows.  After any sequence of requests it is the
    store the service started from followed by the records added since;
    every email keeps the record it had; and a sequence without a
    [/register] request leaves the store as it was. *)
Theorem store_append_only (reqs : list (Z * Request)) (w : World) :
  (exists added, users_db (run reqs w) = (users_db w ++ added)%list)
  /\ (forall email user,
        db_get email (users_db w) = Some user ->
        db_get email (users_db (run reqs w)) = Some user)
  /\ ((forall now data, (now, POST_register data) ∉ reqs) ->
      users_db (run reqs w) = users_db w).
Proof.
  split; [|split].
  - revert w. induction reqs as [|[now req] rest IH]; intros w; simpl.
    + exists []. by rewrite app_nil_r.
    + destruct (IH (snd (handle now req w))) as (added & ->).
      destruct (handle_world now req w) as (_ & _ & [-> | Hreg]); [by exists added|].
      destruct Hreg as (? & ? & ? & ? & _ & _ & _ & _ & _ & _ & ->).
      eexists. by rewrite <- app_assoc.
  - intros email user. apply run_db_get.
  - revert w. induction reqs as [|[now req] rest IH]; intros w Hno; simpl; [done|].
    rewrite IH.
    + destruct (handle_world now req w) as (_ & _ & [-> | Hreg]); [done|].
      destruct Hreg as (data & ? & ? & ? & -> & _). exfalso.
      apply (Hno now data). set_solver.
    + intros n d Hin. apply (Hno n d). set_solver.
Qed.

(** X3: a request that is answered with an error status (400 and above)
    leaves the whole state as it was: store, blacklist and entropy drawn. *)
Theorem failed_request_no_effect (now : Z) (req : Request) (w : World) :
  is_error (fst (handle now req w)) = true ->
  snd (handle now req w) = w.
Proof.
  destruct req as [data|data|h|h|data|data|data]; simpl; try done.
  - unfold_register.
    destruct (body_missing data); [done|].
    destruct (negb (Py.all _)); [done|].
    destruct (body_get data "username"); [|done].
    destruct (body_get data "email") as [email|]; [|done].
    destruct (body_get data "password"); [|done].
    destruct (db_mem email (users_db w)); [done|]. simpl. discriminate.
  - unfold_login.
    destruct (body_missing data); [done|].
    destruct (negb (Py.all _)); [done|].
    destruct (body_get data "email") as [email|]; [|done].
    destruct (body_get data "password"); [|done].
    destruct (db_get email (users_db w)); [|done].
    destruct (negb (String.eqb _ _)); [done|].
    destruct (negb (get_is_active _)); [done|]. simpl. discriminate.
  - unfold logout.
    destruct (negb (Py.truthy h)); [done|].
    destruct (bad_auth_format _); [done|]. simpl. discriminate.
  - unfold_refresh_token.
    destruct (body_missing data); [done|].
    destruct (negb (Py.truthy _)); [done|].
    case_bool_decide; [done|].
    destruct (decode _ _); [|done].
    destruct (negb (bool_decide _)); [done|].
    destruct (find_user_by_id _ _); [|done]. simpl. discriminate.
  - unfold revoke_token.
    destruct (body_missing data); [done|].
    destruct (negb (Py.truthy _)); [done|]. simpl. discriminate.
Qed.

(** X4: the routes keep the store well formed.  Starting from the empty
    store, or from any well-formed one, and with an entropy source that
    never repeats, after any sequence of requests the emails filed are
    pairwise different, the ids are pairwise different, every record is
    filed under its own email, and looking an email up returns the record
    filed under it. *)
Theorem store_wf_reachable (reqs : list (Z * Request)) (w : World) :
  Inj (=) (=) uuid4 ->
  store_wf uuid4 initial_world
  /\ (store_wf uuid4 w ->
      store_wf uuid4 (run reqs w)
      /\ forall email user,
           (email, user) ∈ users_db (run reqs w) ->
           db_get email (users_db (run reqs w)) = Some user
           /\ find_user_by_id (Some (u_id user)) (users_db (run reqs w)) = Some user).
Proof.
  intros Hinj. split; [apply store_wf_initial|].
  intros Hw. pose proof (store_wf_run reqs w Hinj Hw) as Hrun.
  split; [done|]. destruct Hrun as (Hkeys & Hids & _).
  intros email user Hin. split.
  - by apply db_get_of_elem.
  - by eapply find_user_by_id_unique.
Qed.

(** ** Registration, login and the tokens issued *)

(** X5: registration and login round trip.  After a registration with a
    new email has succeeded, and whatever requests are served in between, a
    login with the same email and password succeeds; the user id, username
    and email it reports are the ones [register] answered with. *)
Theorem register_then_login
    (now : Z) (data : Body) (username email password : string) (w : World)
    (reqs : list (Z * Request)) (now' : Z) (data' : Body) :
  body_get data "username" = Some username ->
  body_get data "email" = Some email ->
  body_get data "password" = Some password ->
  username <> "" -> email <> "" -> password <> "" ->
  db_get email (users_db w) = None ->
  body_get data' "email" = Some email ->
  body_get data' "password" = Some password ->
  fst (register now data w) = Registered (uuid4 (uuid_calls w)) username email
  /\ exists access refresh,
       fst (login now' data' (run reqs (snd (register now data w))))
       = LoggedIn access refresh (JWT_ACCESS_TOKEN_EXPIRES config)
                  (uuid4 (uuid_calls w)) username email.
Proof.
  intros Hu He Hp Hune Hene Hpne Hnew He' Hp'.
  rewrite (register_supplied uuid4 _ _ _ _ _ _ Hu He Hp Hune Hene Hpne).
  apply db_mem_get in Hnew as Hmem. rewrite Hmem. simpl. split; [done|].
  rewrite (login_found jwt_encode uuid4 config _ _ _ _ _ He' Hp' Hene Hpne).
  erewrite run_db_get; [|simpl; apply db_get_set_eq].
  simpl. rewrite String.eqb_refl. simpl. eauto.
Qed.

(** X6: a registered email stays taken.  After a successful registration,
    and whatever requests are served in between, another registration with
    that email (any username and password) is answered 409 [USER_EXISTS]
    and changes nothing; the record, and so the password that logs in,
    stays the first one. *)
Theorem registered_email_stays_taken
    (now : Z) (data : Body) (username email password : string) (w : World)
    (reqs : list (Z * Request)) (now' : Z) (data' : Body)
    (username' password' : string) :
  body_get data "username" = Some username ->
  body_get data "email" = Some email ->
  body_get data "password" = Some password ->
  username <> "" -> email <> "" -> password <> "" ->
  db_get email (users_db w) = None ->
  body_get data' "username" = Some username' ->
  body_get data' "email" = Some email ->
  body_get data' "password" = Some password' ->
  username' <> "" -> password' <> "" ->
  let w' := run reqs (snd (register now data w)) in
  register now' data' w'
  = (Failure 409 "User with this email already exists" "USER_EXISTS", w')
  /\ db_get email (users_db w')
     = Some (mkUser (uuid4 (uuid_calls w)) username email password now (Some true)).
Proof.
  intros Hu He Hp Hune Hene Hpne Hnew Hu' He' Hp' Hune' Hpne' w'.
  assert (Hget : db_get email (users_db w')
                 = Some (mkUser (uuid4 (uuid_calls w)) username email password
                           now (Some true))).
  { subst w'. apply run_db_get.
    rewrite (register_supplied uuid4 _ _ _ _ _ _ Hu He Hp Hune Hene Hpne).
    apply db_mem_get in Hnew as ->. simpl. apply db_get_set_eq. }
  split; [|done].
  rewrite (register_supplied uuid4 _ _ _ _ _ _ Hu' He' Hp' Hune' Hene Hpne').
  unfold db_mem. by rewrite Hget.
Qed.

(** X7: login, then verify.  When a login succeeds, presenting its access
    token to [/verify] while the token is not revoked and the codec decodes
    it to the payload it was encoded from returns the user's id, email and
    username, the time of the login and that time plus the access lifetime.
    The store is not consulted: this holds in any state. *)
Theorem login_then_verify
    (now : Z) (data : Body) (email password : string) (user : User) (w : World)
    (now' : Z) (h : option string) (w' : World) :
  body_get data "email" = Some email -> body_get data "password" = Some password ->
  email <> "" -> password <> "" ->
  db_get email (users_db w) = Some user ->
  u_password user = password ->
  get_is_active user = true ->
  let ap := access_payload config user now (uuid4 (uuid_calls w)) in
  bearer_token h = Some (encode ap) ->
  encode ap ∉ token_blacklist w' ->
  decode (encode ap) now' = Return ap ->
  (exists refresh,
     fst (login now data w)
     = LoggedIn (encode ap) refresh (JWT_ACCESS_TOKEN_EXPIRES config)
                (u_id user) (u_username user) (u_email user))
  /\ verify now' h w'
     = Verified (Some (u_id user)) (Some (u_email user)) (Some (u_username user))
                (Some now) (Some (now + JWT_ACCESS_TOKEN_EXPIRES config)).
Proof.
  intros He Hp Hene Hpne Hget Hpw Hact ap Hh Hnot Hdec. split.
  - rewrite (login_found jwt_encode uuid4 config _ _ _ _ _ He Hp Hene Hpne).
    rewrite Hget, Hact. apply String.eqb_eq in Hpw as ->. simpl. eauto.
  - rewrite (verify_bearer jwt_decode config _ _ _ _ Hh).
    rewrite bool_decide_eq_false_2 by done. by rewrite Hdec.
Qed.

(** X8: login, then refresh.  In a well-formed store, when a login has
    succeeded, presenting its refresh token to [/refresh] at any later
    point, while the token is not revoked and the codec decodes it to the
    payload it was encoded from, mints an access token for the same user:
    the claims are taken from the user's record, with the time of the
    refresh and a newly drawn token id. *)
Theorem login_then_refresh
    (now : Z) (data : Body) (email password : string) (user : User) (w : World)
    (reqs : list (Z * Request)) (now' : Z) (data' : Body) :
  Inj (=) (=) uuid4 ->
  store_wf uuid4 w ->
  body_get data "email" = Some email -> body_get data "password" = Some password ->
  email <> "" -> password <> "" ->
  db_get email (users_db w) = Some user ->
  u_password user = password ->
  get_is_active user = true ->
  let rp := refresh_payload config user now (uuid4 (S (uuid_calls w))) in
  let w' := run reqs (snd (login now data w)) in
  body_get data' "refresh_token" = Some (encode rp) ->
  encode rp <> "" ->
  encode rp ∉ token_blacklist w' ->
  decode (encode rp) now' = Return rp ->
  (exists access,
     fst (login now data w)
     = LoggedIn access (encode rp) (JWT_ACCESS_TOKEN_EXPIRES config)
                (u_id user) (u_username user) (u_email user))
  /\ refresh_token now' data' w'
     = (Refreshed (encode (access_payload config user now' (uuid4 (uuid_calls w'))))
          (JWT_ACCESS_TOKEN_EXPIRES config),
        snd (draw_uuid uuid4 w')).
Proof.
  intros Hinj Hwf He Hp Hene Hpne Hget Hpw Hact rp w' Ht Htne Hnot Hdec.
  assert (Hlogin : login now data w
                   = (LoggedIn
                        (encode (access_payload config user now (uuid4 (uuid_calls w))))
                        (encode rp) (JWT_ACCESS_TOKEN_EXPIRES config)
                        (u_id user) (u_username user) (u_email user),
                      snd (draw_uuid uuid4 (snd (draw_uuid uuid4 w))))).
  { rewrite (login_found jwt_encode uuid4 config _ _ _ _ _ He Hp Hene Hpne).
    rewrite Hget, Hact. by apply String.eqb_eq in Hpw as ->. }
  split; [rewrite Hlogin; simpl; eauto|].
  rewrite (refresh_token_decoded jwt_encode jwt_decode uuid4 config
             _ _ _ _ _ Ht Htne Hnot Hdec).
  rewrite bool_decide_eq_true_2 by done. cbn [negb p_sub rp refresh_payload].
  assert (Hwf' : store_wf uuid4 w').
  { subst w'. rewrite Hlogin. simpl. apply store_wf_run; [done|].
    pose proof (store_wf_handle now (POST_login data) w Hinj Hwf) as H.
    simpl in H. by rewrite Hlogin in H. }
  assert (Hget' : db_get email (users_db w') = Some user).
  { subst w'. apply run_db_get. by rewrite Hlogin. }
  destruct Hwf' as (_ & Hids & _).
  by rewrite (find_user_by_id_unique _ email user Hids (db_get_elem_of _ _ _ Hget')).
Qed.

(** ** Refresh *)

(** X9: [/refresh] succeeds exactly when every check passes: the request
    carries a non-empty token that is not revoked, the codec decodes it, its
    [type] is [refresh] and its [sub] is the id of a stored record.  The
    access token it returns is built from that stored record (not from the
    claims of the refresh token), and the state changes by one draw of the
    entropy source only. *)
Theorem refresh_succeeds_iff
    (now : Z) (data : Body) (w : World) (access : string) (expires_in : Z) :
  fst (refresh_token now data w) = Refreshed access expires_in
  <-> exists t payload user,
        body_get data "refresh_token" = Some t /\ t <> ""
        /\ (t ∉ token_blacklist w)
        /\ decode t now = Return payload
        /\ p_type payload = Some "refresh"
        /\ find_user_by_id (p_sub payload) (users_db w) = Some user
        /\ access = encode (access_payload config user now (uuid4 (uuid_calls w)))
        /\ expires_in = JWT_ACCESS_TOKEN_EXPIRES config
        /\ snd (refresh_token now data w) = snd (draw_uuid uuid4 w).
Proof.
  split.
  - unfold_refresh_token.
    destruct (body_missing data); [discriminate|].
    destruct (Py.truthy (body_get data "refresh_token")) eqn:Htok;
      [|discriminate].
    apply truthy_inv in Htok as (t & Hget & Hne). rewrite Hget. simpl.
    case_bool_decide as Hbl; [discriminate|].
    destruct (decode t now) as [payload|e] eqn:Hdec;
      [|by destruct e as [[]|]].
    case_bool_decide as Hty; simpl; [|discriminate].
    destruct (find_user_by_id _ _) as [user|] eqn:Hfind; [|discriminate].
    simpl. intros [= <- <-]. by exists t, payload, user.
  - intros (t & payload & user & Hget & Hne & Hbl & Hdec & Hty & Hfind & -> & -> & _).
    rewrite (refresh_token_decoded jwt_encode jwt_decode uuid4 config
               _ _ _ _ _ Hget Hne Hbl Hdec).
    rewrite bool_decide_eq_true_2 by done. simpl. by rewrite Hfind.
Qed.

(** X10: a refresh token is not used up.  After a successful refresh the
    same token, presented again while the codec still decodes it, is
    accepted again and mints a token for the same record with the next
    token id: [/refresh] neither revokes nor rotates the refresh token. *)
Theorem refresh_token_reusable
    (now now' : Z) (data : Body) (t : string) (payload : Payload) (user : User)
    (w : World) :
  body_get data "refresh_token" = Some t -> t <> "" ->
  t ∉ token_blacklist w ->
  decode t now = Return payload ->
  decode t now' = Return payload ->
  p_type payload = Some "refresh" ->
  find_user_by_id (p_sub payload) (users_db w) = Some user ->
  fst (refresh_token now data w)
  = Refreshed (encode (access_payload config user now (uuid4 (uuid_calls w))))
      (JWT_ACCESS_TOKEN_EXPIRES config)
  /\ fst (refresh_token now' data (snd (refresh_token now data w)))
     = Refreshed
         (encode (access_payload config user now' (uuid4 (S (uuid_calls w)))))
         (JWT_ACCESS_TOKEN_EXPIRES config)
  /\ t ∉ token_blacklist (snd (refresh_token now data w)).
Proof.
  intros Hget Hne Hbl Hdec Hdec' Hty Hfind.
  rewrite (refresh_token_decoded jwt_encode jwt_decode uuid4 config
             _ _ _ _ _ Hget Hne Hbl Hdec).
  rewrite bool_decide_eq_true_2 by done. simpl. rewrite Hfind. simpl.
  split; [done|]. split; [|done].
  rewrite (refresh_token_decoded jwt_encode jwt_decode uuid4 config
             now' data t payload); [|done..].
  rewrite bool_decide_eq_true_2 by done. simpl. by rewrite Hfind.
Qed.

(** X18: a refresh token without a [sub] claim resolves to no user: it is
    answered 404 [USER_NOT_FOUND], whatever the store holds. *)
Theorem refresh_without_subject
    (now : Z) (data : Body) (t : string) (payload : Payload) (w : World) :
  body_get data "refresh_token" = Some t -> t <> "" ->
  t ∉ token_blacklist w ->
  decode t now = Return payload ->
  p_type payload = Some "refresh" ->
  p_sub payload = None ->
  refresh_token now data w = (Failure 404 "User not found" "USER_NOT_FOUND", w).
Proof.
  intros Hget Hne Hbl Hdec Hty Hsub.
  rewrite (refresh_token_decoded jwt_encode jwt_decode uuid4 config
             _ _ _ _ _ Hget Hne Hbl Hdec).
  rewrite bool_decide_eq_true_2 by done. simpl. rewrite Hsub.
  assert (Hnone : find_user_by_id None (users_db w) = None).
  { apply find_user_by_id_None. by intros ? ? _. }
  by rewrite Hnone.
Qed.

(** ** Revocation across the endpoints *)

(** X11: a blacklisted token is refused by every endpoint that takes one,
    for good and whatever the codec would say about it: after any further
    requests [/refresh] answers 401 [TOKEN_REVOKED] without changing the
    state, and [/introspect] answers 200 with [active: false] and no error
    member. *)
Theorem revoked_token_refused_everywhere
    (t : string) (w : World) (reqs : list (Z * Request)) (now : Z)
    (data_r data_i : Body) :
  t ∈ token_blacklist w -> t <> "" ->
  body_get data_r "refresh_token" = Some t ->
  body_get data_i "token" = Some t ->
  refresh_token now data_r (run reqs w)
  = (Failure 401 "Refresh token has been revoked" "TOKEN_REVOKED", run reqs w)
  /\ introspect_token now data_i (run reqs w) = Inactive 200 None.
Proof.
  intros Hbl Hne Hr Hi.
  assert (Hbl' : t ∈ token_blacklist (run reqs w)).
  { rewrite run_blacklist. set_solver. }
  split.
  - unfold_refresh_token.
    rewrite (body_get_Some _ _ _ Hr), Hr, (truthy_Some _ Hne). simpl.
    by rewrite bool_decide_eq_true_2.
  - unfold_introspect_token.
    rewrite (body_get_Some _ _ _ Hi), Hi, (truthy_Some _ Hne). simpl.
    by rewrite bool_decide_eq_true_2.
Qed.

(** X12: [/verify] and [/introspect] agree.  For the same token, at the same
    time and in the same state, [/introspect] reports it active exactly when
    [/verify] accepts it, and the claims [/verify] returns are the [sub],
    [email], [username], [iat] and [exp] of the claims [/introspect]
    returns; when [/introspect] reports it inactive, [/verify] answers with
    an error. *)
Theorem verify_introspect_agree
    (now : Z) (h : option string) (data : Body) (t : string) (w : World) :
  bearer_token h = Some t ->
  body_get data "token" = Some t ->
  match introspect_token now data w with
  | Active payload =>
      verify now h w
      = Verified (p_sub payload) (p_email payload) (p_username payload)
                 (p_iat payload) (p_exp payload)
  | r => active r = Some false /\ is_error (verify now h w) = true
  end.
Proof.
  intros Hh Hget. pose proof (bearer_token_nonempty _ _ Hh) as Hne.
  rewrite (verify_bearer jwt_decode config _ _ _ _ Hh). unfold_introspect_token.
  rewrite (body_get_Some _ _ _ Hget), Hget, (truthy_Some _ Hne). simpl.
  case_bool_decide; [done|].
  by destruct (decode t now) as [payload|[[]|]].
Qed.

(** X13: requests that do not revoke a token do not change what [/verify]
    and [/introspect] answer for it: registrations, logins, refreshes and
    the revocation of other tokens leave the answer as it was. *)
Theorem verify_unaffected_by_other_requests
    (now : Z) (h : option string) (data : Body) (t : string) (w : World)
    (reqs : list (Z * Request)) :
  bearer_token h = Some t ->
  body_get data "token" = Some t ->
  t ∉ revoked_in reqs ->
  verify now h (run reqs w) = verify now h w
  /\ introspect_token now data (run reqs w) = introspect_token now data w.
Proof.
  intros Hh Hget Hnot. pose proof (bearer_token_nonempty _ _ Hh) as Hne.
  assert (Hbl : bool_decide (t ∈ token_blacklist (run reqs w))
                = bool_decide (t ∈ token_blacklist w)).
  { apply bool_decide_ext. rewrite run_blacklist. set_solver. }
  split.
  - rewrite !(verify_bearer jwt_decode config _ _ _ _ Hh). by rewrite Hbl.
  - unfold_introspect_token.
    rewrite (body_get_Some _ _ _ Hget), Hget, (truthy_Some _ Hne). simpl.
    by rewrite Hbl.
Qed.

(** X14: the [Authorization] scheme is matched without regard to case and
    any single whitespace character separates it from the token: a header
    [scheme c token] with [scheme] any casing of [bearer], [c] whitespace
    and [token] non-empty and free of whitespace is treated by [/verify]
    and [/logout] exactly as [Bearer token]. *)
Theorem bearer_scheme_case_insensitive
    (now : Z) (scheme t : string) (c : ascii) (w : World) :
  Py.lower scheme = "bearer" ->
  Py.isspace c = true ->
  forallb (fun c => negb (Py.isspace c)) (list_ascii_of_string t) = true ->
  t <> "" ->
  bearer_token (Some (scheme ++ String c t)) = Some t
  /\ verify now (Some (scheme ++ String c t)) w = verify now (bearer t) w
  /\ logout (Some (scheme ++ String c t)) w = logout (bearer t) w.
Proof.
  intros Hlow Hc Ht Hne.
  assert (Hscheme : forallb (fun c => negb (Py.isspace c))
                      (list_ascii_of_string scheme) = true).
  { apply lower_no_space. by rewrite Hlow. }
  assert (Hsne : scheme <> "") by (intros ->; discriminate).
  assert (Hb : bearer_token (Some (scheme ++ String c t)) = Some t).
  { unfold bearer_token, Py.split, bad_auth_format.
    assert (Htruthy : Py.truthy (Some (scheme ++ String c t)) = true).
    { apply truthy_Some. destruct scheme; [done|discriminate]. }
    rewrite Htruthy. simpl default.
    rewrite (split_from_first scheme "" t c Hscheme Hc Hsne).
    rewrite (split_from_word t "" Ht Hne).
    change ("" ++ scheme) with scheme. change ("" ++ t) with t.
    cbn [length nth Nat.eqb negb orb]. by rewrite Hlow. }
  split; [done|]. split.
  - rewrite (verify_bearer jwt_decode config _ _ _ _ Hb).
    by rewrite (verify_bearer jwt_decode config _ _ _ _ (bearer_token_bearer t Ht Hne)).
  - rewrite (logout_bearer _ _ _ Hb).
    by rewrite (logout_bearer _ _ _ (bearer_token_bearer t Ht Hne)).
Qed.

(** X15: [/logout] is [/revoke] of the bearer token.  For a well-formed
    header it succeeds without decoding the token (valid or not, it is
    blacklisted), leaves the state that revoking the same token leaves, and
    logging out twice is the same as once. *)
Theorem logout_is_revoke
    (h : option string) (data : Body) (t : string) (w : World) :
  bearer_token h = Some t ->
  body_get data "token" = Some t ->
  fst (logout h w) = LoggedOut
  /\ token_blacklist (snd (logout h w)) = {[ t ]} ∪ token_blacklist w
  /\ snd (logout h w) = snd (revoke_token data w)
  /\ snd (logout h (snd (logout h w))) = snd (logout h w).
Proof.
  intros Hh Hget. pose proof (bearer_token_nonempty _ _ Hh) as Hne.
  rewrite (revoke_token_ok _ _ _ Hget Hne).
  rewrite (logout_bearer _ _ w Hh). simpl.
  rewrite (logout_bearer _ _ (blacklist_add t w) Hh). simpl.
  repeat split. apply blacklist_add_idemp.
Qed.

(** ** Outcomes of registration and login *)

(** X16: the three outcomes of [/register] on a body that
    [request.get_json()] returns, as [None] or as an object with
    string-valued fields.  The answer is 400 exactly when the username, the
    email or the password is missing or empty ([None] and the empty object
    included), 409 exactly when all three are supplied and the email is
    already filed, and 201 exactly when all three are supplied and the email
    is new; validation comes before the lookup, so a request without a
    password is answered 400 even for an email already filed.  A body that
    [get_json()] cannot read, or that is not such an object, is outside
    this statement. *)
Theorem register_outcomes (now : Z) (data : Body) (w : World) :
  let fields := [body_get data "username"; body_get data "email";
                 body_get data "password"] in
  let taken := db_mem (default "" (body_get data "email")) (users_db w) in
  (status_code (fst (register now data w)) = 400%nat <-> Py.all fields = false)
  /\ (status_code (fst (register now data w)) = 409%nat
      <-> Py.all fields = true /\ taken = true)
  /\ (status_code (fst (register now data w)) = 201%nat
      <-> Py.all fields = true /\ taken = false).
Proof.
  clear jwt_encode jwt_decode config.
  intros fields taken. subst fields taken. unfold_register.
  destruct (body_missing data) eqn:Hmiss.
  { rewrite !(body_missing_get _ _ Hmiss). simpl. naive_solver. }
  destruct (Py.all _) eqn:Hall; simpl; [|naive_solver].
  unfold Py.all in Hall. cbn [forallb] in Hall.
  apply andb_true_iff in Hall as [(username & Hu & _)%truthy_inv Hall].
  apply andb_true_iff in Hall as [(email & He & _)%truthy_inv Hall].
  apply andb_true_iff in Hall as [(password & Hp & _)%truthy_inv _].
  rewrite Hu, He, Hp. simpl.
  destruct (db_mem email (users_db w)); simpl; naive_solver.
Qed.

(** X17: the outcomes of [/login] on a body that [request.get_json()]
    returns, as [None] or as an object with string-valued fields, with
    [jwt.encode] and the lifetime arithmetic taken not to raise.  The answer
    is 400 exactly when the email or the password is missing or empty, and
    200 exactly when the email is filed, the password equals the stored one
    and the record is not deactivated; a login never changes the store or
    the blacklist.  A body that [get_json()] cannot read, or that is not
    such an object, is outside this statement. *)
Theorem login_outcomes (now : Z) (data : Body) (w : World) :
  (status_code (fst (login now data w)) = 400%nat
   <-> Py.all [body_get data "email"; body_get data "password"] = false)
  /\ (status_code (fst (login now data w)) = 200%nat
      <-> exists email password user,
            body_get data "email" = Some email /\ email <> ""
            /\ body_get data "password" = Some password /\ password <> ""
            /\ db_get email (users_db w) = Some user
            /\ u_password user = password
            /\ get_is_active user = true)
  /\ users_db (snd (login now data w)) = users_db w
  /\ token_blacklist (snd (login now data w)) = token_blacklist w.
Proof.
  unfold_login.
  destruct (body_missing data) eqn:Hmiss.
  { rewrite !(body_missing_get _ _ Hmiss). simpl.
    repeat split; try done. intros (? & ? & ? & ? & _); discriminate. }
  destruct (Py.all _) eqn:Hall; simpl.
  2:{ repeat split; try done. intros (e & p & u & He & Hene & Hp & Hpne & _).
      rewrite He, Hp in Hall. unfold Py.all in Hall. cbn [forallb] in Hall.
      by rewrite (truthy_Some _ Hene), (truthy_Some _ Hpne) in Hall. }
  unfold Py.all in Hall. cbn [forallb] in Hall.
  apply andb_true_iff in Hall as [(email & He & Hene)%truthy_inv Hall].
  apply andb_true_iff in Hall as [(password & Hp & Hpne)%truthy_inv _].
  rewrite He, Hp.
  destruct (db_get email (users_db w)) as [user|] eqn:Hget; simpl.
  2:{ repeat split; try done. intros (? & ? & ? & [= <-] & _ & _ & _ & ? & _).
      congruence. }
  destruct (String.eqb_spec (u_password user) password) as [Hpw|Hpw]; simpl.
  2:{ repeat split; try done.
      intros (? & ? & ? & [= <-] & _ & [= <-] & _ & ? & ? & _). congruence. }
  destruct (get_is_active user) eqn:Hact; simpl.
  - repeat split; try done. intros _. by exists email, password, user.
  - repeat split; try done.
    intros (? & ? & ? & [= <-] & _ & _ & _ & ? & _ & ?). congruence.
Qed.

(** ** Refresh and the state of the subject *)


End ServiceProperties.

(** ** Concrete runs for the service as a whole *)

Module ServiceRuns.
Import Demo.

Local Abbreviation verify_issued := (verify Issued.jwt_decode config).
Local Abbreviation refresh_issued :=
  (refresh_token jwt_encode Issued.jwt_decode uuid4 config).
Local Abbreviation verify := (verify jwt_decode config).
Local Abbreviation login := (login jwt_encode uuid4 config).
Local Abbreviation register := (register uuid4).
Local Abbreviation refresh_token := (refresh_token jwt_encode jwt_decode uuid4 config).
Local Abbreviation introspect_token := (introspect_token jwt_decode config).
Local Abbreviation handle := (handle jwt_encode jwt_decode uuid4 config).
Local Abbreviation run := (run jwt_encode jwt_decode uuid4 config).

Ltac evaluate := (vm_compute; reflexivity) || discriminate.

Lemma uuid4_inj : Inj (=) (=) uuid4.
Proof. unfold uuid4. apply pretty_nat_inj. Defined.

Lemma store_append_only_witness :
  users_db
    (run [(5000, POST_login (json [("email", "alice@x.com"); ("password", "pw-a")]))]
       world)
  = users_db world.
Proof.
  apply (store_append_only jwt_encode jwt_decode uuid4 config
           [(5000, POST_login (json [("email", "alice@x.com"); ("password", "pw-a")]))]
           world).
  intros now data [[=]|[]%elem_of_nil]%elem_of_cons.
Defined.

Lemma failed_request_no_effect_witness :
  snd (handle 5000
         (POST_login (json [("email", "alice@x.com"); ("password", "nope")])) world)
  = world.
Proof.
  apply (failed_request_no_effect jwt_encode jwt_decode uuid4 config 5000
           (POST_login (json [("email", "alice@x.com"); ("password", "nope")]))
           world).
  evaluate.
Defined.

Lemma store_wf_reachable_witness :
  store_wf uuid4
    (run [(10, Issued.register_carol); (5000, POST_login Issued.login_carol)]
       initial_world).
Proof.
  destruct (store_wf_reachable jwt_encode jwt_decode uuid4 config
              [(10, Issued.register_carol); (5000, POST_login Issued.login_carol)]
              initial_world uuid4_inj) as [Hinit Hrun].
  exact (proj1 (Hrun Hinit)).
Defined.

Lemma register_then_login_witness :
  exists access refresh,
    fst (login 5000 Issued.login_carol
           (run [(20, POST_revoke (json [("token", "x")]))]
              (snd (register 10
                      (json [("username", "carol"); ("email", "carol@x.com");
                             ("password", "pw-c")])
                      initial_world))))
    = LoggedIn access refresh (JWT_ACCESS_TOKEN_EXPIRES config)
               (uuid4 (uuid_calls initial_world)) "carol" "carol@x.com".
Proof.
  apply (register_then_login jwt_encode jwt_decode uuid4 config 10
           (json [("username", "carol"); ("email", "carol@x.com"); ("password", "pw-c")])
           "carol" "carol@x.com" "pw-c" initial_world
           [(20, POST_revoke (json [("token", "x")]))] 5000 Issued.login_carol);
    evaluate.
Defined.

Lemma registered_email_stays_taken_witness :
  register 30
    (json [("username", "mallory"); ("email", "carol@x.com"); ("password", "other")])
    (run [] (snd (register 10
                    (json [("username", "carol"); ("email", "carol@x.com");
                           ("password", "pw-c")])
                    initial_world)))
  = (Failure 409 "User with this email already exists" "USER_EXISTS",
     run [] (snd (register 10
                    (json [("username", "carol"); ("email", "carol@x.com");
                           ("password", "pw-c")])
                    initial_world))).
Proof.
  apply (registered_email_stays_taken jwt_encode jwt_decode uuid4 config 10
           (json [("username", "carol"); ("email", "carol@x.com"); ("password", "pw-c")])
           "carol" "carol@x.com" "pw-c" initial_world [] 30
           (json [("username", "mallory"); ("email", "carol@x.com");
                  ("password", "other")])
           "mallory" "other");
    evaluate.
Defined.

Lemma login_then_verify_witness :
  verify_issued 5100
    (bearer (encode jwt_encode config (access_payload config Issued.carol 5000 (uuid4 1))))
    initial_world
  = Verified (Some (uuid4 0)) (Some "carol@x.com") (Some "carol")
             (Some 5000) (Some (5000 + 3600)).
Proof.
  apply (login_then_verify jwt_encode Issued.jwt_decode uuid4 config 5000
           Issued.login_carol "carol@x.com" "pw-c" Issued.carol Issued.world
           5100
           (bearer (encode jwt_encode config
                      (access_payload config Issued.carol 5000 (uuid4 1))))
           initial_world);
    try evaluate.
  all: try (vm_compute; set_solver).
Defined.

Lemma store_wf_issued : store_wf uuid4 Issued.world.
Proof.
  exact (store_wf_handle jwt_encode jwt_decode uuid4 config 10
           Issued.register_carol initial_world uuid4_inj (store_wf_initial uuid4)).
Defined.

Lemma login_then_refresh_witness :
  refresh_issued 5100
    (json [("refresh_token",
            encode jwt_encode config (refresh_payload config Issued.carol 5000 (uuid4 2)))])
    (run [] (snd (login 5000 Issued.login_carol Issued.world)))
  = (Refreshed
       (encode jwt_encode config (access_payload config Issued.carol 5100 (uuid4 3)))
       3600,
     {| users_db := users_db Issued.world; token_blacklist := ∅; uuid_calls := 4 |}).
Proof.
  apply (login_then_refresh jwt_encode Issued.jwt_decode uuid4 config 5000
           Issued.login_carol "carol@x.com" "pw-c" Issued.carol Issued.world
           [] 5100
           (json [("refresh_token",
                   encode jwt_encode config
                     (refresh_payload config Issued.carol 5000 (uuid4 2)))]));
    try evaluate.
  - apply uuid4_inj.
  - apply store_wf_issued.
  all: try (vm_compute; set_solver).
Defined.


Lemma refresh_token_reusable_witness :
  fst (refresh_token 5001 (json [("refresh_token", signed "alice-refresh")])
         (snd (refresh_token 5000 (json [("refresh_token", signed "alice-refresh")])
                 world)))
  = Refreshed (encode jwt_encode config (access_payload config alice 5001 (uuid4 1)))
      3600.
Proof.
  apply (refresh_token_reusable jwt_encode jwt_decode uuid4 config 5000 5001
           (json [("refresh_token", signed "alice-refresh")])
           (signed "alice-refresh") (claims "id-alice" "refresh" 605800) alice world);
    try evaluate.
  all: try (vm_compute; set_solver).
Defined.

Lemma refresh_without_subject_witness :
  refresh_issued 5100 (json [("refresh_token", signed "refresh-anon")]) Issued.world
  = (Failure 404 "User not found" "USER_NOT_FOUND", Issued.world).
Proof.
  apply (refresh_without_subject jwt_encode Issued.jwt_decode uuid4 config 5100
           (json [("refresh_token", signed "refresh-anon")])
           (signed "refresh-anon")
           {| p_sub := None; p_email := None; p_username := None;
              p_type := Some "refresh"; p_iat := Some 5000;
              p_exp := Some 609800; p_jti := Some "a";
              p_iss := Some "kong-demo-auth" |}
           Issued.world);
    try evaluate.
  all: try (vm_compute; set_solver).
Defined.

Lemma revoked_token_refused_everywhere_witness :
  introspect_token 5000 (json [("token", signed "alice-refresh")])
    (run [(4000, POST_login (json [("email", "alice@x.com"); ("password", "pw-a")]))]
       (blacklist_add (signed "alice-refresh") world))
  = Inactive 200 None.
Proof.
  apply (revoked_token_refused_everywhere jwt_encode jwt_decode uuid4 config
           (signed "alice-refresh") (blacklist_add (signed "alice-refresh") world)
           [(4000, POST_login (json [("email", "alice@x.com"); ("password", "pw-a")]))]
           5000
           (json [("refresh_token", signed "alice-refresh")])
           (json [("token", signed "alice-refresh")]));
    try evaluate.
  all: try (simpl; set_solver).
Defined.

Lemma verify_introspect_agree_witness :
  match introspect_token 5000 (json [("token", signed "alice-refresh")]) world with
  | Active payload =>
      verify 5000 (bearer (signed "alice-refresh")) world
      = Verified (p_sub payload) (p_email payload) (p_username payload)
                 (p_iat payload) (p_exp payload)
  | r => active r = Some false
         /\ is_error (verify 5000 (bearer (signed "alice-refresh")) world) = true
  end.
Proof.
  apply (verify_introspect_agree jwt_decode config 5000
           (bearer (signed "alice-refresh"))
           (json [("token", signed "alice-refresh")])
           (signed "alice-refresh") world);
    evaluate.
Defined.

Lemma verify_unaffected_by_other_requests_witness :
  verify 5000 (bearer (signed "alice-refresh"))
    (run [(4000, POST_revoke (json [("token", signed "alice-old")]))] world)
  = verify 5000 (bearer (signed "alice-refresh")) world.
Proof.
  apply (verify_unaffected_by_other_requests jwt_encode jwt_decode uuid4 config
           5000 (bearer (signed "alice-refresh"))
           (json [("token", signed "alice-refresh")])
           (signed "alice-refresh") world
           [(4000, POST_revoke (json [("token", signed "alice-old")]))]);
    try evaluate.
  all: try (vm_compute; set_solver).
Defined.

Lemma bearer_scheme_case_insensitive_witness :
  bearer_token (Some ("BeArEr" ++ String "009" "abc.def.ghi")) = Some "abc.def.ghi".
Proof.
  apply (bearer_scheme_case_insensitive jwt_decode config 0
           "BeArEr" "abc.def.ghi" "009"%char world);
    evaluate.
Defined.

Lemma logout_is_revoke_witness :
  snd (logout (bearer (forged "alice-old")) world)
  = snd (revoke_token (json [("token", forged "alice-old")]) world).
Proof.
  apply (logout_is_revoke (bearer (forged "alice-old"))
           (json [("token", forged "alice-old")]) (forged "alice-old") world);
    evaluate.
Defined.

End ServiceRuns.
